(** * The automatic wallpaper rotation hook ([useAutoWallpaper])

    A shallow embedding of [hooks/useAutoWallpaper] and of the part of
    [lib/wallpaper] it calls.  JavaScript numbers are IEEE-754 binary64
    values, modelled by Rocq's primitive [float]; objects used as tables are
    finite maps; asynchronous functions are programs of a small free monad
    whose nodes are the awaited collaborator calls and the synchronous
    accesses to the hook's refs, the window's timers and the console. *)

From Stdlib Require Import Floats.
From stdpp Require Import gmap strings list fin_maps relations.

(** ** Data model ([lib/wallpaper]) *)

(** [IntervalUnit] is a TypeScript union of string literals: at run time a
    unit is a string, and the type only promises it is one of the four. *)
Definition IntervalUnit (unit : string) : Prop :=
  unit ∈ ["minutes"; "hours"; "days"; "weeks"].

Record WallpaperSettings := {
  api_key : string;
  collection_id : string;
  interval_value : float;
  interval_unit : string;
  auto_change : bool;
}.

Module UnsplashImage.
Record urls_t := { raw : string; full : string; regular : string;
                   small : string; thumb : string }.
Record user_t := { name : string; username : string }.
Record links_t := { html : string; download : string;
                    download_location : string }.
Record t := {
  id : string;
  description : option string;
  alt_description : option string;
  urls : urls_t;
  user : user_t;
  links : links_t;
}.
End UnsplashImage.

(** A thrown value or a promise rejection reason. *)
Record js_error := JsError { error_name : string; error_message : string }.

(** How a call ends: a returned (resolved) value or a thrown (rejected)
    error. *)
Inductive result (A : Type) : Type :=
| Ok (a : A)
| Err (e : js_error).
Arguments Ok {A} a.
Arguments Err {A} e.

(** ** JavaScript coercions used by the hook *)

(** [ToNumber] of a table lookup: [None] stands for a key that is not an own
    numeric property, which reads [undefined] (or an inherited function or
    object of [Object.prototype]); all of these coerce to [NaN]. *)
Definition to_number (v : option float) : float :=
  match v with
  | Some x => x
  | None => nan
  end.

(** [ToBoolean] of a string: only the empty string is falsy. *)
Definition truthy_string (s : string) : bool :=
  match s with
  | EmptyString => false
  | String _ _ => true
  end.

(** [ToBoolean] of [number | null]: [null] and [0] are falsy. *)
Definition truthy_handle (v : option nat) : bool :=
  match v with
  | Some (S _) => true
  | Some O => false
  | None => false
  end.

(** ** Programs *)

(** What the hook does that is visible outside it, in the order it happens. *)
Inductive event :=
| EGetSettings
| EFetchRandomImage
| ESetWallpaper (imageUrl imageId : string)
| ESaveCurrentWallpaper (image : UnsplashImage.t) (localPath : string)
| ETriggerDownload (downloadLocation : string)
| EOnWallpaperChanged
| EConsoleError (err : js_error).

(** A program is a tree of effects.  An [Await...] node is a call of an
    asynchronous collaborator of [lib/wallpaper] followed by [await]: the
    continuation receives how the promise settled.  The other nodes are
    synchronous. *)
Inductive prog (A : Type) : Type :=
| Ret (a : A)
| Throw (e : js_error)
| AwaitGetSettings (k : result WallpaperSettings → prog A)
| AwaitFetchRandomImage (k : result UnsplashImage.t → prog A)
| AwaitSetWallpaper (imageUrl imageId : string) (k : result string → prog A)
| AwaitSaveCurrentWallpaper (image : UnsplashImage.t) (localPath : string)
    (k : result unit → prog A)
| AwaitTriggerDownload (downloadLocation : string) (k : result unit → prog A)
| ReadIsRunning (k : bool → prog A)
| WriteIsRunning (b : bool) (k : prog A)
| ReadIntervalRef (k : option nat → prog A)
| WriteIntervalRef (v : option nat) (k : prog A)
| SetInterval (ms : float) (k : nat → prog A)
| ClearInterval (handle : option nat) (k : prog A)
| ConsoleError (err : js_error) (k : prog A)
| CallObserver (k : result unit → prog A).
Arguments Ret {A} a.
Arguments Throw {A} e.
Arguments AwaitGetSettings {A} k.
Arguments AwaitFetchRandomImage {A} k.
Arguments AwaitSetWallpaper {A} imageUrl imageId k.
Arguments AwaitSaveCurrentWallpaper {A} image localPath k.
Arguments AwaitTriggerDownload {A} downloadLocation k.
Arguments ReadIsRunning {A} k.
Arguments WriteIsRunning {A} b k.
Arguments ReadIntervalRef {A} k.
Arguments WriteIntervalRef {A} v k.
Arguments SetInterval {A} ms k.
Arguments ClearInterval {A} handle k.
Arguments ConsoleError {A} err k.
Arguments CallObserver {A} k.

Fixpoint bind {A B} (p : prog A) (f : A → prog B) : prog B :=
  match p with
  | Ret a => f a
  | Throw e => Throw e
  | AwaitGetSettings k => AwaitGetSettings (λ r, bind (k r) f)
  | AwaitFetchRandomImage k => AwaitFetchRandomImage (λ r, bind (k r) f)
  | AwaitSetWallpaper u i k => AwaitSetWallpaper u i (λ r, bind (k r) f)
  | AwaitSaveCurrentWallpaper im lp k =>
      AwaitSaveCurrentWallpaper im lp (λ r, bind (k r) f)
  | AwaitTriggerDownload d k => AwaitTriggerDownload d (λ r, bind (k r) f)
  | ReadIsRunning k => ReadIsRunning (λ b, bind (k b) f)
  | WriteIsRunning b k => WriteIsRunning b (bind k f)
  | ReadIntervalRef k => ReadIntervalRef (λ v, bind (k v) f)
  | WriteIntervalRef v k => WriteIntervalRef v (bind k f)
  | SetInterval ms k => SetInterval ms (λ h, bind (k h) f)
  | ClearInterval h k => ClearInterval h (bind k f)
  | ConsoleError err k => ConsoleError err (bind k f)
  | CallObserver k => CallObserver (λ r, bind (k r) f)
  end.

Notation "'let*' x ':=' p 'in' q" := (bind p (λ x, q))
  (at level 10, x name, p at level 100, q at level 200,
   format "'[v' 'let*'  x  ':='  p  'in' '/' q ']'").

(** [try { p } catch (err) { h err }] *)
Fixpoint try_catch {A} (p : prog A) (h : js_error → prog A) : prog A :=
  match p with
  | Ret a => Ret a
  | Throw e => h e
  | AwaitGetSettings k => AwaitGetSettings (λ r, try_catch (k r) h)
  | AwaitFetchRandomImage k => AwaitFetchRandomImage (λ r, try_catch (k r) h)
  | AwaitSetWallpaper u i k => AwaitSetWallpaper u i (λ r, try_catch (k r) h)
  | AwaitSaveCurrentWallpaper im lp k =>
      AwaitSaveCurrentWallpaper im lp (λ r, try_catch (k r) h)
  | AwaitTriggerDownload d k => AwaitTriggerDownload d (λ r, try_catch (k r) h)
  | ReadIsRunning k => ReadIsRunning (λ b, try_catch (k b) h)
  | WriteIsRunning b k => WriteIsRunning b (try_catch k h)
  | ReadIntervalRef k => ReadIntervalRef (λ v, try_catch (k v) h)
  | WriteIntervalRef v k => WriteIntervalRef v (try_catch k h)
  | SetInterval ms k => SetInterval ms (λ x, try_catch (k x) h)
  | ClearInterval x k => ClearInterval x (try_catch k h)
  | ConsoleError err k => ConsoleError err (try_catch k h)
  | CallObserver k => CallObserver (λ r, try_catch (k r) h)
  end.

(** [try { p } finally { f }]: [f] runs however [p] ends, a [return] inside
    [p] included, and then [p]'s completion stands (unless [f] throws). *)
Fixpoint try_finally {A} (p : prog A) (f : prog unit) : prog A :=
  match p with
  | Ret a => let* _ := f in Ret a
  | Throw e => let* _ := f in Throw e
  | AwaitGetSettings k => AwaitGetSettings (λ r, try_finally (k r) f)
  | AwaitFetchRandomImage k => AwaitFetchRandomImage (λ r, try_finally (k r) f)
  | AwaitSetWallpaper u i k => AwaitSetWallpaper u i (λ r, try_finally (k r) f)
  | AwaitSaveCurrentWallpaper im lp k =>
      AwaitSaveCurrentWallpaper im lp (λ r, try_finally (k r) f)
  | AwaitTriggerDownload d k =>
      AwaitTriggerDownload d (λ r, try_finally (k r) f)
  | ReadIsRunning k => ReadIsRunning (λ b, try_finally (k b) f)
  | WriteIsRunning b k => WriteIsRunning b (try_finally k f)
  | ReadIntervalRef k => ReadIntervalRef (λ v, try_finally (k v) f)
  | WriteIntervalRef v k => WriteIntervalRef v (try_finally k f)
  | SetInterval ms k => SetInterval ms (λ x, try_finally (k x) f)
  | ClearInterval x k => ClearInterval x (try_finally k f)
  | ConsoleError err k => ConsoleError err (try_finally k f)
  | CallObserver k => CallObserver (λ r, try_finally (k r) f)
  end.

(** [await] of a settled promise: the value, or the rejection thrown. *)
Definition of_result {A} (r : result A) : prog A :=
  match r with
  | Ok a => Ret a
  | Err e => Throw e
  end.

(** The collaborators of [lib/wallpaper], each called and awaited. *)
Definition getSettings : prog WallpaperSettings :=
  AwaitGetSettings of_result.
Definition fetchRandomImage : prog UnsplashImage.t :=
  AwaitFetchRandomImage of_result.
Definition setWallpaper (imageUrl imageId : string) : prog string :=
  AwaitSetWallpaper imageUrl imageId of_result.
Definition saveCurrentWallpaper (image : UnsplashImage.t) (localPath : string)
  : prog unit :=
  AwaitSaveCurrentWallpaper image localPath of_result.
Definition triggerDownload (downloadLocation : string) : prog unit :=
  AwaitTriggerDownload downloadLocation of_result.

(** ** The hook ([hooks/useAutoWallpaper]) *)

Definition multipliers : gmap string float :=
  <["minutes" := (60 * 1000)%float]>
  (<["hours" := (60 * 60 * 1000)%float]>
  (<["days" := (24 * 60 * 60 * 1000)%float]>
  (<["weeks" := (7 * 24 * 60 * 60 * 1000)%float]> ∅))).

Definition getIntervalMs (value : float) (unit : string) : prog float :=
  Ret (PrimFloat.mul value (to_number (multipliers !! unit))).

(** [onWallpaperChanged?.()] *)
Definition call_onWallpaperChanged : prog unit := CallObserver of_result.

Definition changeWallpaper : prog unit :=
  ReadIsRunning (λ running,
  if running then Ret tt else
  WriteIsRunning true (
  try_finally
    (try_catch
       (let* settings := getSettings in
        if negb (truthy_string (api_key settings))
           || negb (auto_change settings)
        then Ret tt
        else
          let* image := fetchRandomImage in
          let* path := setWallpaper
                         (UnsplashImage.full (UnsplashImage.urls image))
                         (UnsplashImage.id image) in
          let* _ := saveCurrentWallpaper image path in
          let* _ := triggerDownload
                      (UnsplashImage.download_location
                         (UnsplashImage.links image)) in
          call_onWallpaperChanged)
       (λ err, ConsoleError err (Ret tt)))
    (WriteIsRunning false (Ret tt)))).

Definition startAutoChange : prog unit :=
  let* settings := getSettings in
  if negb (auto_change settings) || negb (truthy_string (api_key settings))
  then Ret tt
  else
    let* intervalMs := getIntervalMs (interval_value settings)
                         (interval_unit settings) in
    ReadIntervalRef (λ current,
    let* _ := (if truthy_handle current
               then ClearInterval current (Ret tt)
               else Ret tt) in
    SetInterval intervalMs (λ handle,
    WriteIntervalRef (Some handle) (Ret tt))).

Definition stopAutoChange : prog unit :=
  ReadIntervalRef (λ current,
  if truthy_handle current
  then ClearInterval current (WriteIntervalRef None (Ret tt))
  else Ret tt).

(** ** The world the hook runs in *)

(** The two refs of one hook instance, the intervals this instance holds on
    the window (handle ↦ delay in milliseconds; the handler is always
    [changeWallpaper]), and the trace of what it did. *)
Record world := {
  isRunningRef : bool;
  intervalRef : option nat;
  timers : gmap nat float;
  handles_issued : nat;
  current_wallpaper : option (UnsplashImage.t * string);
  log : list event;
}.

Definition set_isRunningRef (b : bool) (w : world) : world :=
  {| isRunningRef := b; intervalRef := intervalRef w; timers := timers w;
     handles_issued := handles_issued w;
     current_wallpaper := current_wallpaper w; log := log w |}.

Definition set_intervalRef (v : option nat) (w : world) : world :=
  {| isRunningRef := isRunningRef w; intervalRef := v; timers := timers w;
     handles_issued := handles_issued w;
     current_wallpaper := current_wallpaper w; log := log w |}.

Definition emit (e : event) (w : world) : world :=
  {| isRunningRef := isRunningRef w; intervalRef := intervalRef w;
     timers := timers w; handles_issued := handles_issued w;
     current_wallpaper := current_wallpaper w; log := log w ++ [e] |}.

(** [window.setInterval] returns a handle greater than zero that it has not
    returned before. *)
Definition window_setInterval (ms : float) (w : world) : nat * world :=
  let handle := S (handles_issued w) in
  (handle,
   {| isRunningRef := isRunningRef w; intervalRef := intervalRef w;
      timers := <[handle := ms]> (timers w); handles_issued := handle;
      current_wallpaper := current_wallpaper w; log := log w |}).

(** [clearInterval] of a handle that is not active, or of [null], does
    nothing. *)
Definition window_clearInterval (handle : option nat) (w : world) : world :=
  match handle with
  | Some h =>
      {| isRunningRef := isRunningRef w; intervalRef := intervalRef w;
         timers := delete h (timers w); handles_issued := handles_issued w;
         current_wallpaper := current_wallpaper w; log := log w |}
  | None => w
  end.

(** Modelled from the spec: the backend command behind
    [saveCurrentWallpaper] (WallpaperStateStore.save) is not part of the
    front end.  The spec has it overwrite the single persisted "current
    wallpaper" record wholesale with the image and the local path; a save
    that fails is taken to leave the record as it was.  The timestamp the
    backend adds is not modelled. *)
Definition backend_save (image : UnsplashImage.t) (localPath : string)
    (r : result unit) (w : world) : world :=
  match r with
  | Ok _ =>
      {| isRunningRef := isRunningRef w; intervalRef := intervalRef w;
         timers := timers w; handles_issued := handles_issued w;
         current_wallpaper := Some (image, localPath); log := log w |}
  | Err _ => w
  end.

(** How the collaborators answer during one run: a rotation calls each of
    them at most once. *)
Record environment := {
  env_getSettings : result WallpaperSettings;
  env_fetchRandomImage : result UnsplashImage.t;
  env_setWallpaper : result string;
  env_saveCurrentWallpaper : result unit;
  env_triggerDownload : result unit;
}.

(** How an awaited promise settled, for resuming a suspended program. *)
Inductive settlement :=
| SettleSettings (r : result WallpaperSettings)
| SettleImage (r : result UnsplashImage.t)
| SettlePath (r : result string)
| SettleUnit (r : result unit).

(** A program that has returned or thrown. *)
Definition finished {A} (p : prog A) : bool :=
  match p with
  | Ret _ | Throw _ => true
  | _ => false
  end.

Definition pending {A} (p : prog A) : bool := negb (finished p).

Definition completion {A} (p : prog A) : option (result A) :=
  match p with
  | Ret a => Some (Ok a)
  | Throw e => Some (Err e)
  | _ => None
  end.

Section Semantics.

(** The optional argument of the hook.  The callback returns or throws,
    which may depend on what has happened so far. *)
Variable onWallpaperChanged : option (list event → result unit).

Definition observe (w : world) : result unit * world :=
  match onWallpaperChanged with
  | Some callback =>
      let w' := emit EOnWallpaperChanged w in (callback (log w'), w')
  | None => (Ok tt, w)
  end.

(** One synchronous stretch: run up to the next [await] (the call is
    made, and logged, before the program suspends there) or to the end. *)
Fixpoint run {A} (p : prog A) (w : world) : world * prog A :=
  match p with
  | Ret _ | Throw _ => (w, p)
  | AwaitGetSettings _ => (emit EGetSettings w, p)
  | AwaitFetchRandomImage _ => (emit EFetchRandomImage w, p)
  | AwaitSetWallpaper u i _ => (emit (ESetWallpaper u i) w, p)
  | AwaitSaveCurrentWallpaper im lp _ =>
      (emit (ESaveCurrentWallpaper im lp) w, p)
  | AwaitTriggerDownload d _ => (emit (ETriggerDownload d) w, p)
  | ReadIsRunning k => run (k (isRunningRef w)) w
  | WriteIsRunning b k => run k (set_isRunningRef b w)
  | ReadIntervalRef k => run (k (intervalRef w)) w
  | WriteIntervalRef v k => run k (set_intervalRef v w)
  | SetInterval ms k =>
      let '(handle, w') := window_setInterval ms w in run (k handle) w'
  | ClearInterval h k => run k (window_clearInterval h w)
  | ConsoleError err k => run k (emit (EConsoleError err) w)
  | CallObserver k => let '(r, w') := observe w in run (k r) w'
  end.

(** The awaited promise settles: the suspended program takes the result
    and runs its next synchronous stretch. *)
Definition resume {A} (p : prog A) (s : settlement) (w : world)
  : option (world * prog A) :=
  match p, s with
  | AwaitGetSettings k, SettleSettings r => Some (run (k r) w)
  | AwaitFetchRandomImage k, SettleImage r => Some (run (k r) w)
  | AwaitSetWallpaper _ _ k, SettlePath r => Some (run (k r) w)
  | AwaitSaveCurrentWallpaper im lp k, SettleUnit r =>
      Some (run (k r) (backend_save im lp r w))
  | AwaitTriggerDownload _ k, SettleUnit r => Some (run (k r) w)
  | _, _ => None
  end.

(** A whole call, from invocation to the settling of its promise, with
    nothing else running in between. *)
Fixpoint exec {A} (env : environment) (p : prog A) (w : world)
  : world * result A :=
  match p with
  | Ret a => (w, Ok a)
  | Throw e => (w, Err e)
  | AwaitGetSettings k =>
      exec env (k (env_getSettings env)) (emit EGetSettings w)
  | AwaitFetchRandomImage k =>
      exec env (k (env_fetchRandomImage env)) (emit EFetchRandomImage w)
  | AwaitSetWallpaper u i k =>
      exec env (k (env_setWallpaper env)) (emit (ESetWallpaper u i) w)
  | AwaitSaveCurrentWallpaper im lp k =>
      let r := env_saveCurrentWallpaper env in
      exec env (k r)
        (backend_save im lp r (emit (ESaveCurrentWallpaper im lp) w))
  | AwaitTriggerDownload d k =>
      exec env (k (env_triggerDownload env)) (emit (ETriggerDownload d) w)
  | ReadIsRunning k => exec env (k (isRunningRef w)) w
  | WriteIsRunning b k => exec env k (set_isRunningRef b w)
  | ReadIntervalRef k => exec env (k (intervalRef w)) w
  | WriteIntervalRef v k => exec env k (set_intervalRef v w)
  | SetInterval ms k =>
      let '(handle, w') := window_setInterval ms w in exec env (k handle) w'
  | ClearInterval h k => exec env k (window_clearInterval h w)
  | ConsoleError err k => exec env k (emit (EConsoleError err) w)
  | CallObserver k => let '(r, w') := observe w in exec env (k r) w'
  end.

(** The answer the environment gives to the call a program is suspended
    at. *)
Definition answer {A} (env : environment) (p : prog A)
  : option settlement :=
  match p with
  | AwaitGetSettings _ => Some (SettleSettings (env_getSettings env))
  | AwaitFetchRandomImage _ => Some (SettleImage (env_fetchRandomImage env))
  | AwaitSetWallpaper _ _ _ => Some (SettlePath (env_setWallpaper env))
  | AwaitSaveCurrentWallpaper _ _ _ =>
      Some (SettleUnit (env_saveCurrentWallpaper env))
  | AwaitTriggerDownload _ _ => Some (SettleUnit (env_triggerDownload env))
  | _ => None
  end.

(** The same whole call, as stretches: resume with the environment's
    answer until the program has finished. *)
Fixpoint drive {A} (fuel : nat) (env : environment) (st : world * prog A)
  : option (world * result A) :=
  match completion st.2 with
  | Some r => Some (st.1, r)
  | None =>
      match fuel with
      | O => None
      | S fuel' =>
          s ← answer env st.2;
          st' ← resume st.2 s st.1;
          drive fuel' env st'
      end
  end.

End Semantics.

(** ** One hook instance under interleaving *)

(** The three functions the hook returns.  A timer tick calls
    [changeWallpaper]. *)
Inductive op := ChangeWallpaper | StartAutoChange | StopAutoChange.

Definition body (o : op) : prog unit :=
  match o with
  | ChangeWallpaper => changeWallpaper
  | StartAutoChange => startAutoChange
  | StopAutoChange => stopAutoChange
  end.

(** Every call made so far, with what is left of it: a finished program, or
    the [await] it is suspended at. *)
Record system := {
  sys_world : world;
  sys_tasks : list (op * prog unit);
}.

Definition world0 : world :=
  {| isRunningRef := false; intervalRef := None; timers := ∅;
     handles_issued := 0; current_wallpaper := None; log := [] |}.

Definition system0 : system := {| sys_world := world0; sys_tasks := [] |}.

(** A call of [changeWallpaper] that has not completed. *)
Definition rotating (t : op * prog unit) : bool :=
  match t.1 with
  | ChangeWallpaper => pending t.2
  | _ => false
  end.

Fixpoint in_flight (ts : list (op * prog unit)) : nat :=
  match ts with
  | [] => 0
  | t :: ts' => (if rotating t then 1 else 0) + in_flight ts'
  end.

Fixpoint count_event (P : event → bool) (l : list event) : nat :=
  match l with
  | [] => 0
  | e :: l' => (if P e then 1 else 0) + count_event P l'
  end.

Definition is_EOnWallpaperChanged (e : event) : bool :=
  match e with EOnWallpaperChanged => true | _ => false end.

Definition is_ETriggerDownload (e : event) : bool :=
  match e with ETriggerDownload _ => true | _ => false end.

Definition is_ESetWallpaper (e : event) : bool :=
  match e with ESetWallpaper _ _ => true | _ => false end.

(** [settings.api_key] non-empty and [settings.auto_change] set. *)
Definition enabled (s : WallpaperSettings) : bool :=
  truthy_string (api_key s) && auto_change s.

(** The ref holds the handle of the only active interval, or [null] when
    there is none. *)
Definition tracked (w : world) : Prop :=
  match intervalRef w with
  | Some h => h ≠ 0 ∧ ∃ ms, timers w = {[h := ms]}
  | None => timers w = ∅
  end.

(** What is left of a rotation that has taken the guard: it does not touch
    the refs or the timers until it writes [false] to the guard, and that
    write is the last thing it does. *)
Fixpoint holds_guard (p : prog unit) : Prop :=
  match p with
  | Ret _ | Throw _ => False
  | AwaitGetSettings k => ∀ r, holds_guard (k r)
  | AwaitFetchRandomImage k => ∀ r, holds_guard (k r)
  | AwaitSetWallpaper _ _ k => ∀ r, holds_guard (k r)
  | AwaitSaveCurrentWallpaper _ _ k => ∀ r, holds_guard (k r)
  | AwaitTriggerDownload _ k => ∀ r, holds_guard (k r)
  | ConsoleError _ k => holds_guard k
  | CallObserver k => ∀ r, holds_guard (k r)
  | WriteIsRunning b k => b = false ∧ k = Ret tt
  | ReadIsRunning _ | ReadIntervalRef _ | WriteIntervalRef _ _
  | SetInterval _ _ | ClearInterval _ _ => False
  end.

Section Scheduler.

Variable onWallpaperChanged : option (list event → result unit).

(** A step of the instance: somebody calls one of the three functions, an
    active interval ticks, or an awaited promise settles. *)
Inductive sys_step : system → system → Prop :=
| step_call o w ts w' p' :
    run onWallpaperChanged (body o) w = (w', p') →
    sys_step {| sys_world := w; sys_tasks := ts |}
             {| sys_world := w'; sys_tasks := ts ++ [(o, p')] |}
| step_tick h ms w ts w' p' :
    timers w !! h = Some ms →
    run onWallpaperChanged changeWallpaper w = (w', p') →
    sys_step {| sys_world := w; sys_tasks := ts |}
             {| sys_world := w';
                sys_tasks := ts ++ [(ChangeWallpaper, p')] |}
| step_settle i o p s w ts w' p' :
    ts !! i = Some (o, p) →
    resume onWallpaperChanged p s w = Some (w', p') →
    sys_step {| sys_world := w; sys_tasks := ts |}
             {| sys_world := w'; sys_tasks := <[i := (o, p')]> ts |}.

Definition reachable (s : system) : Prop := rtc sys_step system0 s.

(** The same steps as functions, to build states with. *)
Definition call (o : op) (s : system) : system :=
  let r := run onWallpaperChanged (body o) (sys_world s) in
  {| sys_world := r.1; sys_tasks := sys_tasks s ++ [(o, r.2)] |}.

Definition settle (i : nat) (st : settlement) (s : system) : system :=
  match sys_tasks s !! i with
  | Some (o, p) =>
      match resume onWallpaperChanged p st (sys_world s) with
      | Some r =>
          {| sys_world := r.1; sys_tasks := <[i := (o, r.2)]> (sys_tasks s) |}
      | None => s
      end
  | None => s
  end.

(** What is left of a call of [startAutoChange] after its [await]: one
    synchronous stretch that keeps the ref and the timers in step and
    leaves the guard alone. *)
Definition arms (p : prog unit) : Prop :=
  ∀ w, tracked w →
    finished (run onWallpaperChanged p w).2 = true
    ∧ tracked (run onWallpaperChanged p w).1
    ∧ isRunningRef (run onWallpaperChanged p w).1 = isRunningRef w.

Definition task_ok (t : op * prog unit) : Prop :=
  match t.1 with
  | ChangeWallpaper => t.2 = Ret tt ∨ holds_guard t.2
  | StartAutoChange =>
      finished t.2 = true
      ∨ ∃ k, t.2 = AwaitGetSettings k ∧ ∀ r, arms (k r)
  | StopAutoChange => finished t.2 = true
  end.

Definition sys_inv (s : system) : Prop :=
  tracked (sys_world s)
  ∧ Forall task_ok (sys_tasks s)
  ∧ in_flight (sys_tasks s) = (if isRunningRef (sys_world s) then 1 else 0).

End Scheduler.

(** ** Sample data *)

Definition sample_settings : WallpaperSettings :=
  {| api_key := "k"; collection_id := ""; interval_value := 1%float;
     interval_unit := "hours"; auto_change := true |}.

Definition sample_image : UnsplashImage.t :=
  {| UnsplashImage.id := "img1";
     UnsplashImage.description := None;
     UnsplashImage.alt_description := None;
     UnsplashImage.urls :=
       {| UnsplashImage.raw := "raw1"; UnsplashImage.full := "full1";
          UnsplashImage.regular := "regular1"; UnsplashImage.small := "small1";
          UnsplashImage.thumb := "thumb1" |};
     UnsplashImage.user :=
       {| UnsplashImage.name := "Ann"; UnsplashImage.username := "ann" |};
     UnsplashImage.links :=
       {| UnsplashImage.html := "html1"; UnsplashImage.download := "dl1";
          UnsplashImage.download_location := "loc1" |} |}.

Definition sample_error : js_error :=
  {| error_name := "Error"; error_message := "failed" |}.

Definition all_ok : environment :=
  {| env_getSettings := Ok sample_settings;
     env_fetchRandomImage := Ok sample_image;
     env_setWallpaper := Ok "/tmp/img1.jpg";
     env_saveCurrentWallpaper := Ok tt;
     env_triggerDownload := Ok tt |}.

Definition save_fails : environment :=
  {| env_getSettings := Ok sample_settings;
     env_fetchRandomImage := Ok sample_image;
     env_setWallpaper := Ok "/tmp/img1.jpg";
     env_saveCurrentWallpaper := Err sample_error;
     env_triggerDownload := Ok tt |}.

Definition just_returns : option (list event → result unit) :=
  Some (λ _, Ok tt).

Definition apply_fails : environment :=
  {| env_getSettings := Ok sample_settings;
     env_fetchRandomImage := Ok sample_image;
     env_setWallpaper := Err sample_error;
     env_saveCurrentWallpaper := Ok tt;
     env_triggerDownload := Ok tt |}.

Definition fetch_fails : environment :=
  {| env_getSettings := Ok sample_settings;
     env_fetchRandomImage := Err sample_error;
     env_setWallpaper := Ok "/tmp/img1.jpg";
     env_saveCurrentWallpaper := Ok tt;
     env_triggerDownload := Ok tt |}.

Definition disabled_settings : WallpaperSettings :=
  {| api_key := "k"; collection_id := ""; interval_value := 1%float;
     interval_unit := "hours"; auto_change := false |}.

Definition user_disabled : environment :=
  {| env_getSettings := Ok disabled_settings;
     env_fetchRandomImage := Ok sample_image;
     env_setWallpaper := Ok "/tmp/img1.jpg";
     env_saveCurrentWallpaper := Ok tt;
     env_triggerDownload := Ok tt |}.

(** Every step of a rotation goes through: the settings allow it and the
    four later collaborators all resolve. *)
Definition rotation_succeeds (env : environment) : bool :=
  match env_getSettings env, env_fetchRandomImage env, env_setWallpaper env,
        env_saveCurrentWallpaper env, env_triggerDownload env with
  | Ok s, Ok _, Ok _, Ok _, Ok _ => enabled s
  | _, _, _, _, _ => false
  end.

Definition download_fails : environment :=
  {| env_getSettings := Ok sample_settings;
     env_fetchRandomImage := Ok sample_image;
     env_setWallpaper := Ok "/tmp/img1.jpg";
     env_saveCurrentWallpaper := Ok tt;
     env_triggerDownload := Err sample_error |}.

Definition weekly_settings : WallpaperSettings :=
  {| api_key := "k"; collection_id := "880012"; interval_value := 1%float;
     interval_unit := "weeks"; auto_change := true |}.


(** The instance after one call of [changeWallpaper] that is still waiting
    for its settings. *)
Definition system1 : system := call just_returns ChangeWallpaper system0.

(** The instance after [startAutoChange] has been called and has read
    settings that allow rotation. *)
Definition system_armed : system :=
  settle just_returns 0 (SettleSettings (Ok sample_settings))
    (call just_returns StartAutoChange system0).

(** The instance after a call of [changeWallpaper] whose [getSettings]
    was rejected. *)
Definition system_failed : system :=
  settle just_returns 0 (SettleSettings (Err sample_error))
    (call just_returns ChangeWallpaper system0).

(** ** The effect of the hook *)

(** On mount the hook runs
    [getSettings().then(settings => { if (settings.auto_change &&
    settings.api_key) startAutoChange(); })].  Nobody awaits the promise of
    [startAutoChange()] or the one [then] returns, so how this program ends
    is seen by nobody; what it does to the world is what matters.  On
    unmount the hook runs [stopAutoChange]. *)
Definition mountEffect : prog unit :=
  let* settings := getSettings in
  if auto_change settings && truthy_string (api_key settings)
  then startAutoChange
  else Ret tt.

Definition unmountEffect : prog unit := stopAutoChange.

(** What the observer adds to the trace when it is called with the trace
    [before] behind it: nothing when none is registered, else the call, and
    the logging of what it threw. *)
Definition observer_events
    (observer : option (list event → result unit)) (before : list event)
  : list event :=
  match observer with
  | Some callback =>
      EOnWallpaperChanged
      :: match callback (before ++ [EOnWallpaperChanged]) with
         | Ok _ => []
         | Err e => [EConsoleError e]
         end
  | None => []
  end.

(** ** More sample data *)

Definition settings_rejected : environment :=
  {| env_getSettings := Err sample_error;
     env_fetchRandomImage := Ok sample_image;
     env_setWallpaper := Ok "/tmp/img1.jpg";
     env_saveCurrentWallpaper := Ok tt;
     env_triggerDownload := Ok tt |}.

Definition fortnightly_settings : WallpaperSettings :=
  {| api_key := "k"; collection_id := ""; interval_value := 2%float;
     interval_unit := "fortnights"; auto_change := true |}.

Definition fortnightly : environment :=
  {| env_getSettings := Ok fortnightly_settings;
     env_fetchRandomImage := Ok sample_image;
     env_setWallpaper := Ok "/tmp/img1.jpg";
     env_saveCurrentWallpaper := Ok tt;
     env_triggerDownload := Ok tt |}.

Definition always_throws : option (list event → result unit) :=
  Some (λ _, Err sample_error).

(** A world with one active interval, as [startAutoChange] leaves it. *)
Definition world_armed : world :=
  (exec None all_ok startAutoChange world0).1.

(** ** The error a rotation meets *)

(** The error of the first collaborator that fails in a rotation, in the
    order the rotation calls them; none when the settings stop the rotation
    or every call succeeds. *)
Definition first_failure (env : environment) : option js_error :=
  match env_getSettings env with
  | Err e => Some e
  | Ok s =>
      if enabled s then
        match env_fetchRandomImage env with
        | Err e => Some e
        | Ok _ =>
            match env_setWallpaper env with
            | Err e => Some e
            | Ok _ =>
                match env_saveCurrentWallpaper env with
                | Err e => Some e
                | Ok _ =>
                    match env_triggerDownload env with
                    | Err e => Some e
                    | Ok _ => None
                    end
                end
            end
        end
      else None
  end.

Definition is_EConsoleError (e : event) : bool :=
  match e with EConsoleError _ => true | _ => false end.


(** ** Proof steps shared by the properties below *)

(** Open the world and the environment field by field and let the program
    run. *)
Ltac rotate w env :=
  destruct w as [guard ref tm issued cw lg];
  destruct env as [rs rf ra rv rn];
  cbn in *; subst; cbn.

(** Decide the [enabled] test both ways round. *)
Ltac split_enabled s :=
  unfold enabled in *;
  destruct (truthy_string (api_key s)), (auto_change s);
  cbn in *; try discriminate.

(** Follow every branch on a result, a flag or an optional value. *)
Ltac branches :=
  repeat (cbn;
    match goal with
    | |- context [match ?x with Ok _ => _ | Err _ => _ end] => destruct x
    | |- context [of_result ?x] => destruct x
    | |- context [observe ?o _] => unfold observe; destruct o
    | |- context [if ?b then _ else _] => destruct b
    | |- context [match ?o with Some _ => _ | None => _ end] => destruct o
    end);
  cbn.

(** Walk through what is left of a rotation, one settlement at a time. *)
Ltac guarded :=
  repeat (cbn;
    match goal with
    | x : unit |- _ => destruct x
    | |- _ ∧ _ => split; reflexivity
    | |- ∀ r : result _, _ => intros [? | ?]
    | |- context [if ?b then _ else _] => destruct b
    end).

(** * Properties *)

(** ** Interval arithmetic *)

Lemma mul_nan_r (v : float) : PrimFloat.mul v nan = nan.
Proof.
  rewrite <- (SF2Prim_Prim2SF (PrimFloat.mul v nan)), mul_spec.
  change (Prim2SF nan) with S754_nan.
  destruct (Prim2SF v); reflexivity.
Qed.

Lemma multipliers_minutes : multipliers !! "minutes" = Some 60000%float.
Proof. vm_compute. reflexivity. Qed.

Lemma multipliers_hours : multipliers !! "hours" = Some 3600000%float.
Proof. vm_compute. reflexivity. Qed.

Lemma multipliers_days : multipliers !! "days" = Some 86400000%float.
Proof. vm_compute. reflexivity. Qed.

Lemma multipliers_weeks : multipliers !! "weeks" = Some 604800000%float.
Proof. vm_compute. reflexivity. Qed.

Lemma multipliers_other (unit : string) :
  ¬ IntervalUnit unit → multipliers !! unit = None.
Proof.
  unfold IntervalUnit, multipliers. intros Hout.
  rewrite !lookup_insert_ne; [apply lookup_empty | ..];
    intros <-; apply Hout; set_solver.
Qed.

(** C8: for every valid unit and every value, [getIntervalMs] returns the
    value multiplied by the unit's fixed multiplier: 60,000 for minutes,
    3,600,000 for hours, 86,400,000 for days, 604,800,000 for weeks. *)
Theorem getIntervalMs_valid_unit (value : float) (unit : string) :
  IntervalUnit unit →
  ∃ m, getIntervalMs value unit = Ret (PrimFloat.mul value m)
       ∧ (unit = "minutes" ∧ m = 60000%float
          ∨ unit = "hours" ∧ m = 3600000%float
          ∨ unit = "days" ∧ m = 86400000%float
          ∨ unit = "weeks" ∧ m = 604800000%float).
Proof.
  unfold IntervalUnit, getIntervalMs.
  rewrite !elem_of_cons, elem_of_nil.
  intros [-> | [-> | [-> | [-> | []]]]].
  - exists 60000%float. rewrite multipliers_minutes. auto.
  - exists 3600000%float. rewrite multipliers_hours. auto.
  - exists 86400000%float. rewrite multipliers_days. auto 6.
  - exists 604800000%float. rewrite multipliers_weeks. auto 6.
Qed.

Lemma getIntervalMs_valid_unit_witness :
  ∃ m, getIntervalMs 15%float "minutes" = Ret (PrimFloat.mul 15%float m)
       ∧ ("minutes" = "minutes" ∧ m = 60000%float
          ∨ "minutes" = "hours" ∧ m = 3600000%float
          ∨ "minutes" = "days" ∧ m = 86400000%float
          ∨ "minutes" = "weeks" ∧ m = 604800000%float).
Proof.
  apply (getIntervalMs_valid_unit 15%float "minutes").
  unfold IntervalUnit. apply list_elem_of_here.
Defined.

(** The unit ["fortnights"] is outside the enum, and [getIntervalMs] returns
    [NaN] for it instead of throwing. *)
Lemma getIntervalMs_invalid_unit_returns :
  ¬ IntervalUnit "fortnights"
  ∧ getIntervalMs 5%float "fortnights" = Ret nan
  ∧ ∀ e, getIntervalMs 5%float "fortnights" ≠ Throw e.
Proof.
  split; [| split].
  - unfold IntervalUnit. rewrite !elem_of_cons, elem_of_nil.
    intros [H | [H | [H | [H | []]]]]; discriminate H.
  - vm_compute. reflexivity.
  - intros e. unfold getIntervalMs. discriminate.
Qed.

(** C2, amended: for every value and every unit outside the enum,
    [getIntervalMs] throws nothing and returns [NaN]. *)
Theorem getIntervalMs_invalid_unit (value : float) (unit : string) :
  ¬ IntervalUnit unit → getIntervalMs value unit = Ret nan.
Proof.
  intros Hout. unfold getIntervalMs.
  rewrite (multipliers_other unit Hout). cbn [to_number].
  by rewrite mul_nan_r.
Qed.

Lemma getIntervalMs_invalid_unit_witness :
  getIntervalMs 5%float "fortnights" = Ret nan.
Proof.
  apply (getIntervalMs_invalid_unit 5%float "fortnights").
  unfold IntervalUnit. rewrite !elem_of_cons, elem_of_nil.
  intros [H | [H | [H | [H | []]]]]; discriminate H.
Defined.

(** ** One rotation, run to completion *)

Lemma count_event_app (P : event → bool) (l1 l2 : list event) :
  count_event P (l1 ++ l2) = count_event P l1 + count_event P l2.
Proof. induction l1 as [| e l1 IH]; cbn; [done | rewrite IH; lia]. Qed.

Lemma enabled_true (s : WallpaperSettings) :
  enabled s = true →
  negb (truthy_string (api_key s)) || negb (auto_change s) = false.
Proof.
  unfold enabled. by destruct (truthy_string (api_key s)), (auto_change s).
Qed.

Lemma enabled_false (s : WallpaperSettings) :
  enabled s = false →
  negb (truthy_string (api_key s)) || negb (auto_change s) = true.
Proof.
  unfold enabled. by destruct (truthy_string (api_key s)), (auto_change s).
Qed.

Lemma enabled_true_arm (s : WallpaperSettings) :
  enabled s = true →
  negb (auto_change s) || negb (truthy_string (api_key s)) = false.
Proof.
  unfold enabled. by destruct (truthy_string (api_key s)), (auto_change s).
Qed.

Lemma enabled_false_arm (s : WallpaperSettings) :
  enabled s = false →
  negb (auto_change s) || negb (truthy_string (api_key s)) = true.
Proof.
  unfold enabled. by destruct (truthy_string (api_key s)), (auto_change s).
Qed.

Section Rotation.

Variable onWallpaperChanged : option (list event → result unit).

(** C5: when [fetchRandomImage] fails the rotation aborts: the stored
    current wallpaper is unchanged, neither [setWallpaper] nor
    [triggerDownload] is called (the only calls are [getSettings] and
    [fetchRandomImage], then the error is logged), and the guard is
    cleared. *)
Theorem changeWallpaper_fetch_fails env w s e :
  isRunningRef w = false →
  env_getSettings env = Ok s →
  enabled s = true →
  env_fetchRandomImage env = Err e →
  current_wallpaper (exec onWallpaperChanged env changeWallpaper w).1
  = current_wallpaper w
  ∧ log (exec onWallpaperChanged env changeWallpaper w).1
    = log w ++ [EGetSettings; EFetchRandomImage; EConsoleError e]
  ∧ isRunningRef (exec onWallpaperChanged env changeWallpaper w).1 = false
  ∧ (exec onWallpaperChanged env changeWallpaper w).2 = Ok tt.
Proof.
  intros Hg Hs Hen Hf. rotate w env.
  rewrite (enabled_true s Hen). cbn.
  by rewrite <- !app_assoc.
Qed.

(** C3, amended: when [saveCurrentWallpaper] fails after [setWallpaper]
    succeeded, the rotation stops there: the error is caught and logged,
    [triggerDownload] is not called, the guard is cleared and the call
    still resolves. *)
Theorem changeWallpaper_save_fails env w s image path e :
  isRunningRef w = false →
  env_getSettings env = Ok s →
  enabled s = true →
  env_fetchRandomImage env = Ok image →
  env_setWallpaper env = Ok path →
  env_saveCurrentWallpaper env = Err e →
  log (exec onWallpaperChanged env changeWallpaper w).1
  = log w ++ [EGetSettings; EFetchRandomImage;
              ESetWallpaper (UnsplashImage.full (UnsplashImage.urls image))
                            (UnsplashImage.id image);
              ESaveCurrentWallpaper image path; EConsoleError e]
  ∧ isRunningRef (exec onWallpaperChanged env changeWallpaper w).1 = false
  ∧ (exec onWallpaperChanged env changeWallpaper w).2 = Ok tt.
Proof.
  intros Hg Hs Hen Hf Ha Hv. rotate w env.
  rewrite (enabled_true s Hen). cbn.
  by rewrite <- !app_assoc.
Qed.

(** C4, amended: in a rotation that starts with the guard clear, the
    registered observer is called exactly once if [getSettings],
    [fetchRandomImage], [setWallpaper], [saveCurrentWallpaper] and
    [triggerDownload] all succeeded and the settings allow the rotation, and
    not at all otherwise. *)
Theorem changeWallpaper_notifies_observer env w :
  isRunningRef w = false →
  count_event is_EOnWallpaperChanged
    (log (exec onWallpaperChanged env changeWallpaper w).1)
  = count_event is_EOnWallpaperChanged (log w)
    + match onWallpaperChanged with
      | Some _ => if rotation_succeeds env then 1 else 0
      | None => 0
      end.
Proof.
  intros Hg. unfold rotation_succeeds. rotate w env.
  destruct rs as [s | e]; cbn; [split_enabled s |];
    branches; rewrite ?count_event_app; cbn; lia.
Qed.

(** C9: a rotation first re-reads the settings, and when [auto_change] is
    off or [api_key] is empty at that moment it stops there: no fetch, apply,
    save or notify call is made, nothing else changes, and the guard is
    cleared. *)
Theorem changeWallpaper_rechecks_settings env w :
  isRunningRef w = false →
  (∃ rest, log (exec onWallpaperChanged env changeWallpaper w).1
           = log w ++ EGetSettings :: rest)
  ∧ ∀ s, env_getSettings env = Ok s → enabled s = false →
      log (exec onWallpaperChanged env changeWallpaper w).1
      = log w ++ [EGetSettings]
      ∧ current_wallpaper (exec onWallpaperChanged env changeWallpaper w).1
        = current_wallpaper w
      ∧ timers (exec onWallpaperChanged env changeWallpaper w).1 = timers w
      ∧ isRunningRef (exec onWallpaperChanged env changeWallpaper w).1 = false
      ∧ (exec onWallpaperChanged env changeWallpaper w).2 = Ok tt.
Proof.
  intros Hg. split.
  - rotate w env.
    destruct rs as [s | e]; cbn; [split_enabled s |];
      branches; rewrite <- ?app_assoc; cbn; eauto.
  - intros s Hs Hen. rotate w env.
    by rewrite (enabled_false s Hen).
Qed.

End Rotation.

(** ** Interleaved calls on one hook instance *)

Lemma in_flight_app (ts1 ts2 : list (op * prog unit)) :
  in_flight (ts1 ++ ts2) = in_flight ts1 + in_flight ts2.
Proof. induction ts1 as [| t ts1 IH]; cbn; [done | rewrite IH; lia]. Qed.

Lemma in_flight_insert (ts : list (op * prog unit)) i t t' :
  ts !! i = Some t →
  in_flight (<[i := t']> ts) + (if rotating t then 1 else 0)
  = in_flight ts + (if rotating t' then 1 else 0).
Proof.
  revert i. induction ts as [| t0 ts IH]; intros [| i] Hi; simpl in *;
    try discriminate.
  - injection Hi as ->. destruct (rotating t), (rotating t'); lia.
  - specialize (IH i Hi). revert IH.
    destruct (rotating t), (rotating t'), (rotating t0); lia.
Qed.

Lemma in_flight_lookup (ts : list (op * prog unit)) i t :
  ts !! i = Some t → rotating t = true → 1 ≤ in_flight ts.
Proof.
  revert i. induction ts as [| t0 ts IH]; intros [| i] Hi Ht; cbn in *;
    try discriminate.
  - injection Hi as ->. rewrite Ht. lia.
  - specialize (IH i Hi Ht). destruct (rotating t0); lia.
Qed.

Lemma in_flight_unique (ts : list (op * prog unit)) i j t t' :
  in_flight ts ≤ 1 →
  ts !! i = Some t → rotating t = true →
  ts !! j = Some t' → rotating t' = true →
  i = j.
Proof.
  revert i j.
  induction ts as [| t0 ts IH]; intros [| i] [| j] Hle Hi Ht Hj Ht';
    cbn in *; try discriminate.
  - done.
  - injection Hi as ->. rewrite Ht in Hle.
    pose proof (in_flight_lookup ts j t' Hj Ht'). lia.
  - injection Hj as ->. rewrite Ht' in Hle.
    pose proof (in_flight_lookup ts i t Hi Ht). lia.
  - f_equal. apply (IH i j); try done. destruct (rotating t0); lia.
Qed.

Lemma tracked_frame (w w' : world) :
  timers w' = timers w → intervalRef w' = intervalRef w →
  tracked w → tracked w'.
Proof. unfold tracked. by intros -> ->. Qed.

Section Interleaving.

Variable onWallpaperChanged : option (list event → result unit).

Lemma run_holds_guard (p : prog unit) :
  holds_guard p → ∀ w, isRunningRef w = true →
  timers (run onWallpaperChanged p w).1 = timers w
  ∧ intervalRef (run onWallpaperChanged p w).1 = intervalRef w
  ∧ ((run onWallpaperChanged p w).2 = Ret tt
     ∧ isRunningRef (run onWallpaperChanged p w).1 = false
     ∨ pending (run onWallpaperChanged p w).2 = true
       ∧ holds_guard (run onWallpaperChanged p w).2
       ∧ isRunningRef (run onWallpaperChanged p w).1 = true).
Proof.
  induction p as [| | k IH | k IH | u i k IH | im lp k IH | d k IH | | b k IH
                  | | | | | err k IH | k IH];
    cbn; intros Hp w Hw; try done;
    try (split; [done | split; [done | right; by repeat split]]).
  - destruct Hp as [-> ->]. cbn. auto.
  - exact (IH Hp (emit (EConsoleError err) w) Hw).
  - unfold observe. destruct onWallpaperChanged as [callback |]; cbn.
    + exact (IH _ (Hp _) (emit EOnWallpaperChanged w) Hw).
    + exact (IH _ (Hp _) w Hw).
Qed.

Lemma resume_holds_guard (p : prog unit) s w w' p' :
  holds_guard p → isRunningRef w = true →
  resume onWallpaperChanged p s w = Some (w', p') →
  timers w' = timers w
  ∧ intervalRef w' = intervalRef w
  ∧ (p' = Ret tt ∧ isRunningRef w' = false
     ∨ pending p' = true ∧ holds_guard p' ∧ isRunningRef w' = true).
Proof.
  intros Hp Hw Hres.
  destruct p; cbn in Hp; try done; destruct s; cbn in Hres;
    try discriminate; injection Hres as Hres.
  - pose proof (run_holds_guard (k r) (Hp r) w Hw) as H.
    by rewrite Hres in H.
  - pose proof (run_holds_guard (k r) (Hp r) w Hw) as H.
    by rewrite Hres in H.
  - pose proof (run_holds_guard (k r) (Hp r) w Hw) as H.
    by rewrite Hres in H.
  - assert (isRunningRef (backend_save image localPath r w) = true) as Hw'
      by (by destruct r).
    pose proof (run_holds_guard (k r) (Hp r) _ Hw') as H.
    rewrite Hres in H. by destruct r.
  - pose proof (run_holds_guard (k r) (Hp r) w Hw) as H.
    by rewrite Hres in H.
Qed.

Lemma changeWallpaper_dropped (w : world) :
  isRunningRef w = true → run onWallpaperChanged changeWallpaper w = (w, Ret tt).
Proof. intros Hw. unfold changeWallpaper. cbn. by rewrite Hw. Qed.

Lemma changeWallpaper_takes_guard (w : world) :
  isRunningRef w = false →
  ∃ p, run onWallpaperChanged changeWallpaper w
       = (emit EGetSettings (set_isRunningRef true w), p)
       ∧ pending p = true ∧ holds_guard p.
Proof.
  intros Hw. unfold changeWallpaper. cbn. rewrite Hw. cbn.
  eexists. split; [reflexivity |]. split; [done |]. guarded.
Qed.

Lemma startAutoChange_suspends (w : world) :
  ∃ k, run onWallpaperChanged startAutoChange w
       = (emit EGetSettings w, AwaitGetSettings k)
       ∧ ∀ r, arms onWallpaperChanged (k r).
Proof.
  unfold startAutoChange. cbn. eexists. split; [reflexivity |].
  intros [s | e] [guard ref tm issued cw lg] Htr; cbn; [| done].
  destruct (negb (auto_change s) || negb (truthy_string (api_key s))); cbn;
    [done |].
  unfold tracked in *. cbn in *.
  destruct ref as [[| h] |]; cbn.
  - by destruct Htr.
  - destruct Htr as [_ [ms ->]].
    rewrite delete_singleton_eq, insert_empty. eauto.
  - rewrite Htr, insert_empty. eauto.
Qed.

Lemma stopAutoChange_finishes (w : world) :
  tracked w →
  (run onWallpaperChanged stopAutoChange w).2 = Ret tt
  ∧ tracked (run onWallpaperChanged stopAutoChange w).1
  ∧ isRunningRef (run onWallpaperChanged stopAutoChange w).1 = isRunningRef w.
Proof.
  destruct w as [guard ref tm issued cw lg]. unfold tracked, stopAutoChange.
  cbn. intros Htr. destruct ref as [[| h] |]; cbn.
  - by destruct Htr.
  - destruct Htr as [_ [ms ->]]. by rewrite delete_singleton_eq.
  - done.
Qed.

Lemma holds_guard_pending (p : prog unit) : holds_guard p → pending p = true.
Proof. by destruct p. Qed.

Lemma sys_inv_call_changeWallpaper w ts w' p' :
  sys_inv onWallpaperChanged {| sys_world := w; sys_tasks := ts |} →
  run onWallpaperChanged changeWallpaper w = (w', p') →
  sys_inv onWallpaperChanged
    {| sys_world := w'; sys_tasks := ts ++ [(ChangeWallpaper, p')] |}.
Proof.
  intros (Htr & Hts & Hfl) Hrun. cbn in Htr, Hts, Hfl.
  destruct (isRunningRef w) eqn:Hw.
  - rewrite (changeWallpaper_dropped w Hw) in Hrun. injection Hrun as <- <-.
    repeat split; cbn.
    + done.
    + apply Forall_app_2; [done |]. apply Forall_singleton. by left.
    + rewrite in_flight_app, Hw, Hfl. cbn. lia.
  - destruct (changeWallpaper_takes_guard w Hw) as (p & Hp & Hpend & Hhg).
    rewrite Hp in Hrun. injection Hrun as <- <-.
    repeat split; cbn.
    + by apply (tracked_frame w).
    + apply Forall_app_2; [done |]. apply Forall_singleton. by right.
    + rewrite in_flight_app, Hfl. cbn. unfold rotating. cbn. by rewrite Hpend.
Qed.

Lemma sys_inv_step (s s' : system) :
  sys_inv onWallpaperChanged s → sys_step onWallpaperChanged s s' →
  sys_inv onWallpaperChanged s'.
Proof.
  intros Hinv Hstep.
  destruct Hstep as [o w ts w' p' Hrun | h ms w ts w' p' Hh Hrun
                     | i o p st w ts w' p' Hi Hres].
  - destruct o; cbn [body] in Hrun.
    + by apply (sys_inv_call_changeWallpaper w).
    + destruct Hinv as (Htr & Hts & Hfl). cbn in Htr, Hts, Hfl.
      destruct (startAutoChange_suspends w) as (k & Hk & Harms).
      rewrite Hk in Hrun. injection Hrun as <- <-.
      repeat split; cbn.
      * by apply (tracked_frame w).
      * apply Forall_app_2; [done |]. apply Forall_singleton. right. eauto.
      * rewrite in_flight_app. cbn. lia.
    + destruct Hinv as (Htr & Hts & Hfl). cbn in Htr, Hts, Hfl.
      destruct (stopAutoChange_finishes w Htr) as (Hp & Htr' & Hg).
      rewrite Hrun in Hp, Htr', Hg. cbn in Hp, Htr', Hg. subst p'.
      repeat split; cbn.
      * done.
      * apply Forall_app_2; [done |]. by apply Forall_singleton.
      * rewrite in_flight_app, Hg. cbn. lia.
  - by apply (sys_inv_call_changeWallpaper w).
  - destruct Hinv as (Htr & Hts & Hfl). cbn in Htr, Hts, Hfl.
    pose proof (Forall_lookup_1 _ _ _ _ Hts Hi) as Hok.
    pose proof (in_flight_insert ts i (o, p) (o, p') Hi) as Hins.
    destruct o; unfold task_ok in Hok; cbn in Hok.
    + destruct Hok as [-> | Hhg]; [by destruct st |].
      pose proof (holds_guard_pending p Hhg) as Hpend.
      pose proof (in_flight_lookup ts i _ Hi Hpend) as Hone.
      destruct (isRunningRef w) eqn:Hw; [| lia].
      destruct (resume_holds_guard p st w w' p' Hhg Hw Hres)
        as (Ht & Hr & Hend).
      unfold rotating in Hins. cbn in Hins. rewrite Hpend in Hins.
      repeat split; cbn.
      * by apply (tracked_frame w).
      * apply Forall_insert; [done |].
        destruct Hend as [[-> _] | (_ & Hhg' & _)]; [by left | by right].
      * destruct Hend as [[-> ->] | (Hpend' & _ & ->)].
        -- cbn in Hins. lia.
        -- rewrite Hpend' in Hins. lia.
    + destruct Hok as [Hfin | (k & -> & Harms)];
        [by destruct p, st |].
      destruct st; cbn in Hres; try discriminate. injection Hres as Hres.
      destruct (Harms r w Htr) as (Hfin & Htr' & Hg).
      rewrite Hres in Hfin, Htr', Hg. cbn in Hfin, Htr', Hg.
      repeat split; cbn.
      * done.
      * apply Forall_insert; [done |]. by left.
      * rewrite Hg, <- Hfl. cbn in Hins. lia.
    + by destruct p, st.
Qed.

Lemma sys_inv_system0 : sys_inv onWallpaperChanged system0.
Proof. split; [done | split; [constructor | done]]. Qed.

Lemma reachable_sys_inv (s : system) :
  reachable onWallpaperChanged s → sys_inv onWallpaperChanged s.
Proof.
  unfold reachable. intros Hreach.
  apply (rtc_ind_r (R := sys_step onWallpaperChanged)
           (sys_inv onWallpaperChanged) system0);
    [apply sys_inv_system0 | | exact Hreach].
  intros s1 s2 _ Hstep IH. by apply (sys_inv_step s1).
Qed.

(** The two ways of running a call agree: stretch by stretch with the
    environment's answers, or in one go. *)
Lemma drive_exec {A} (env : environment) (p : prog A) :
  ∀ w, ∃ fuel,
    drive onWallpaperChanged fuel env (run onWallpaperChanged p w)
    = Some (exec onWallpaperChanged env p w).
Proof.
  induction p as [| | k IH | k IH | u i k IH | im lp k IH | d k IH | k IH
                  | b k IH | k IH | v k IH | ms k IH | h k IH | err k IH
                  | k IH];
    intros w; cbn;
    try (by exists 0);
    try (by (edestruct IH as [fuel Hfuel]; exists (S fuel); cbn;
             rewrite Hfuel));
    try (by apply IH).
  unfold observe. destruct onWallpaperChanged as [callback |]; apply IH.
Qed.

(** C1: in every state the instance can reach, a call of [changeWallpaper]
    made while an earlier call has not completed returns at once and leaves
    the world as it was (no collaborator is called, nothing is queued); the
    earlier call is the only rotation in flight. *)
Theorem overlapping_changeWallpaper_dropped (s : system) i p :
  reachable onWallpaperChanged s →
  sys_tasks s !! i = Some (ChangeWallpaper, p) →
  pending p = true →
  run onWallpaperChanged changeWallpaper (sys_world s)
  = (sys_world s, Ret tt)
  ∧ in_flight (sys_tasks s) = 1
  ∧ in_flight (sys_tasks s ++ [(ChangeWallpaper, Ret tt)]) = 1
  ∧ ∀ j q, sys_tasks s !! j = Some (ChangeWallpaper, q) →
           pending q = true → j = i.
Proof.
  intros Hreach Hi Hpend.
  destruct (reachable_sys_inv s Hreach) as (_ & _ & Hfl).
  pose proof (in_flight_lookup _ i _ Hi Hpend) as Hone.
  destruct (isRunningRef (sys_world s)) eqn:Hw; [| lia].
  split; [by apply changeWallpaper_dropped |].
  split; [done |].
  split; [rewrite in_flight_app, Hfl; cbn; lia |].
  intros j q Hj Hq.
  apply (in_flight_unique (sys_tasks s) j i (ChangeWallpaper, q)
           (ChangeWallpaper, p)); try done. lia.
Qed.

(** C6: a rotation that starts with the guard clear has set it by the
    time it makes its first collaborator call, and has cleared it again when
    it ends, however it ends; in every state the instance can reach, the
    guard is set exactly when one call of [changeWallpaper] is in flight and
    clear exactly when none is. *)
Theorem guard_set_and_cleared (env : environment) (w : world) (s : system) :
  isRunningRef w = false →
  reachable onWallpaperChanged s →
  (isRunningRef (run onWallpaperChanged changeWallpaper w).1 = true
   ∧ log (run onWallpaperChanged changeWallpaper w).1 = log w ++ [EGetSettings])
  ∧ isRunningRef (exec onWallpaperChanged env changeWallpaper w).1 = false
  ∧ (isRunningRef (sys_world s) = true ↔ in_flight (sys_tasks s) = 1)
  ∧ (isRunningRef (sys_world s) = false ↔ in_flight (sys_tasks s) = 0).
Proof.
  intros Hw Hreach.
  destruct (reachable_sys_inv s Hreach) as (_ & _ & Hfl).
  split; [| split].
  - destruct (changeWallpaper_takes_guard w Hw) as (p & -> & _). done.
  - clear Hfl Hreach. rotate w env.
    destruct rs as [st | e]; cbn; [split_enabled st |]; branches; done.
  - rewrite Hfl. destruct (isRunningRef (sys_world s));
      intuition (congruence || lia).
Qed.


(** C10: whatever the collaborators and the observer do, the promise that
    [changeWallpaper] returns resolves; it never rejects.  The error of a
    collaborator that fails is caught and logged with [console.error], once,
    as the last thing the rotation does, and is not passed on.  This holds
    for a call run on its own from any world, and under interleaving no call
    of [changeWallpaper] ever ends by throwing. *)
Theorem changeWallpaper_never_rejects (env : environment) (w : world)
    (s : system) i p :
  reachable onWallpaperChanged s →
  sys_tasks s !! i = Some (ChangeWallpaper, p) →
  (exec onWallpaperChanged env changeWallpaper w).2 = Ok tt
  ∧ (isRunningRef w = false →
     ∀ e, first_failure env = Some e →
       ∃ calls,
         log (exec onWallpaperChanged env changeWallpaper w).1
         = log w ++ calls ++ [EConsoleError e]
         ∧ count_event is_EConsoleError calls = 0)
  ∧ (completion p = None ∨ completion p = Some (Ok tt)).
Proof.
  intros Hreach Hi. split; [| split].
  - clear Hreach Hi. rotate w env. destruct guard; cbn; [done |].
    destruct rs as [st | e]; cbn; [split_enabled st |]; branches;
      repeat match goal with x : unit |- _ => destruct x end; done.
  - clear Hreach Hi. intros Hg e Hfail.
    destruct w as [guard ref tm issued cw lg].
    destruct env as [rs rf ra rv rn].
    unfold first_failure in Hfail. cbn in Hg, Hfail. subst guard. cbn.
    destruct rs as [st | e0]; cbn;
      [| injection Hfail as ->; exists [EGetSettings];
         by rewrite <- !app_assoc].
    destruct (enabled st) eqn:Hen; [| discriminate Hfail].
    rewrite (enabled_true st Hen). cbn.
    destruct rf as [image | e0]; cbn;
      [| injection Hfail as ->; exists [EGetSettings; EFetchRandomImage];
         by rewrite <- !app_assoc].
    destruct ra as [path | e0]; cbn;
      [| injection Hfail as ->;
         exists [EGetSettings; EFetchRandomImage;
                 ESetWallpaper (UnsplashImage.full (UnsplashImage.urls image))
                               (UnsplashImage.id image)];
         by rewrite <- !app_assoc].
    destruct rv as [[] | e0]; cbn;
      [| injection Hfail as ->;
         exists [EGetSettings; EFetchRandomImage;
                 ESetWallpaper (UnsplashImage.full (UnsplashImage.urls image))
                               (UnsplashImage.id image);
                 ESaveCurrentWallpaper image path];
         by rewrite <- !app_assoc].
    destruct rn as [[] | e0]; cbn; [discriminate Hfail |].
    injection Hfail as ->.
    exists [EGetSettings; EFetchRandomImage;
            ESetWallpaper (UnsplashImage.full (UnsplashImage.urls image))
                          (UnsplashImage.id image);
            ESaveCurrentWallpaper image path;
            ETriggerDownload
              (UnsplashImage.download_location (UnsplashImage.links image))].
    by rewrite <- !app_assoc.
  - destruct (reachable_sys_inv s Hreach) as (_ & Hts & _).
    destruct (Forall_lookup_1 _ _ _ _ Hts Hi) as [Hp | Hp]; cbn in Hp.
    + right. by rewrite Hp.
    + left. by destruct p.
Qed.

End Interleaving.


(** ** The properties at sample inputs *)

Lemma reachable_call obs (o : op) (s : system) :
  reachable obs s → reachable obs (call obs o s).
Proof.
  intros Hreach. eapply rtc_r; [exact Hreach |].
  destruct s as [w ts]. unfold call. cbn [sys_world sys_tasks].
  apply step_call. by destruct (run obs (body o) w).
Qed.

Lemma reachable_settle obs i st (s : system) :
  reachable obs s → reachable obs (settle obs i st s).
Proof.
  intros Hreach. destruct s as [w ts]. unfold settle. cbn [sys_world sys_tasks].
  destruct (ts !! i) as [[o p] |] eqn:Hi; [| done].
  destruct (resume obs p st w) as [[w' p'] |] eqn:Hres; [| done].
  eapply rtc_r; [exact Hreach |]. by eapply step_settle.
Qed.

Lemma system1_reachable : reachable just_returns system1.
Proof. apply reachable_call. apply rtc_refl. Qed.

Lemma system_armed_reachable : reachable just_returns system_armed.
Proof. apply reachable_settle, reachable_call. apply rtc_refl. Qed.

Lemma system_armed_timer :
  timers (sys_world system_armed) = {[1 := 3600000%float]}
  ∧ intervalRef (sys_world system_armed) = Some 1.
Proof. split; reflexivity. Qed.

Lemma overlapping_changeWallpaper_dropped_witness :
  run just_returns changeWallpaper (sys_world system1)
  = (sys_world system1, Ret tt)
  ∧ in_flight (sys_tasks system1) = 1
  ∧ in_flight (sys_tasks system1 ++ [(ChangeWallpaper, Ret tt)]) = 1
  ∧ ∀ j q, sys_tasks system1 !! j = Some (ChangeWallpaper, q) →
           pending q = true → j = 0.
Proof.
  apply (overlapping_changeWallpaper_dropped just_returns system1 0
           (run just_returns changeWallpaper world0).2).
  - exact system1_reachable.
  - reflexivity.
  - reflexivity.
Defined.

(** With [saveCurrentWallpaper] failing after [setWallpaper] succeeded,
    the rotation never calls [triggerDownload]. *)
Lemma save_failure_skips_triggerDownload :
  env_setWallpaper save_fails = Ok "/tmp/img1.jpg"
  ∧ env_saveCurrentWallpaper save_fails = Err sample_error
  ∧ count_event is_ESetWallpaper
      (log (exec just_returns save_fails changeWallpaper world0).1) = 1
  ∧ count_event is_ETriggerDownload
      (log (exec just_returns save_fails changeWallpaper world0).1) = 0.
Proof. repeat split; reflexivity. Qed.

Lemma changeWallpaper_save_fails_witness :
  log (exec just_returns save_fails changeWallpaper world0).1
  = [EGetSettings; EFetchRandomImage; ESetWallpaper "full1" "img1";
     ESaveCurrentWallpaper sample_image "/tmp/img1.jpg";
     EConsoleError sample_error]
  ∧ isRunningRef (exec just_returns save_fails changeWallpaper world0).1
    = false
  ∧ (exec just_returns save_fails changeWallpaper world0).2 = Ok tt.
Proof.
  apply (changeWallpaper_save_fails just_returns save_fails world0
           sample_settings sample_image "/tmp/img1.jpg" sample_error);
    reflexivity.
Defined.

(** With [triggerDownload] failing, or [saveCurrentWallpaper] failing,
    after [setWallpaper] succeeded, the registered observer is not called. *)
Lemma later_failure_suppresses_observer :
  env_setWallpaper download_fails = Ok "/tmp/img1.jpg"
  ∧ count_event is_ESetWallpaper
      (log (exec just_returns download_fails changeWallpaper world0).1) = 1
  ∧ count_event is_EOnWallpaperChanged
      (log (exec just_returns download_fails changeWallpaper world0).1) = 0
  ∧ count_event is_EOnWallpaperChanged
      (log (exec just_returns save_fails changeWallpaper world0).1) = 0.
Proof. repeat split; reflexivity. Qed.

Lemma changeWallpaper_notifies_observer_witness :
  count_event is_EOnWallpaperChanged
    (log (exec just_returns all_ok changeWallpaper world0).1) = 1
  ∧ count_event is_EOnWallpaperChanged
      (log (exec just_returns apply_fails changeWallpaper world0).1) = 0.
Proof.
  split.
  - exact (changeWallpaper_notifies_observer just_returns all_ok world0
             eq_refl).
  - exact (changeWallpaper_notifies_observer just_returns apply_fails world0
             eq_refl).
Defined.

Lemma changeWallpaper_fetch_fails_witness :
  current_wallpaper (exec just_returns fetch_fails changeWallpaper world0).1
  = None
  ∧ log (exec just_returns fetch_fails changeWallpaper world0).1
    = [EGetSettings; EFetchRandomImage; EConsoleError sample_error]
  ∧ isRunningRef (exec just_returns fetch_fails changeWallpaper world0).1
    = false
  ∧ (exec just_returns fetch_fails changeWallpaper world0).2 = Ok tt.
Proof.
  apply (changeWallpaper_fetch_fails just_returns fetch_fails world0
           sample_settings sample_error); reflexivity.
Defined.

Lemma guard_set_and_cleared_witness :
  (isRunningRef (run just_returns changeWallpaper world0).1 = true
   ∧ log (run just_returns changeWallpaper world0).1 = [EGetSettings])
  ∧ isRunningRef (exec just_returns apply_fails changeWallpaper world0).1
    = false
  ∧ (isRunningRef (sys_world system1) = true
     ↔ in_flight (sys_tasks system1) = 1)
  ∧ (isRunningRef (sys_world system1) = false
     ↔ in_flight (sys_tasks system1) = 0).
Proof.
  apply (guard_set_and_cleared just_returns apply_fails world0 system1).
  - reflexivity.
  - exact system1_reachable.
Defined.


Lemma changeWallpaper_rechecks_settings_witness :
  (∃ rest, log (exec just_returns user_disabled changeWallpaper world0).1
           = EGetSettings :: rest)
  ∧ log (exec just_returns user_disabled changeWallpaper world0).1
    = [EGetSettings]
  ∧ current_wallpaper
      (exec just_returns user_disabled changeWallpaper world0).1 = None
  ∧ timers (exec just_returns user_disabled changeWallpaper world0).1 = ∅
  ∧ isRunningRef (exec just_returns user_disabled changeWallpaper world0).1
    = false
  ∧ (exec just_returns user_disabled changeWallpaper world0).2 = Ok tt.
Proof.
  destruct (changeWallpaper_rechecks_settings just_returns user_disabled
              world0 eq_refl) as [Hfirst Habort].
  split; [exact Hfirst |].
  exact (Habort disabled_settings eq_refl eq_refl).
Defined.

Lemma system_failed_reachable : reachable just_returns system_failed.
Proof. apply reachable_settle, reachable_call. apply rtc_refl. Qed.

Lemma changeWallpaper_never_rejects_witness :
  (exec just_returns download_fails changeWallpaper world0).2 = Ok tt
  ∧ (∃ calls,
       log (exec just_returns download_fails changeWallpaper world0).1
       = calls ++ [EConsoleError sample_error]
       ∧ count_event is_EConsoleError calls = 0)
  ∧ (completion (Ret tt : prog unit) = None
     ∨ completion (Ret tt : prog unit) = Some (Ok tt)).
Proof.
  destruct (changeWallpaper_never_rejects just_returns download_fails world0
              system_failed 0 (Ret tt) system_failed_reachable eq_refl)
    as (Hresolves & Hlogged & Hnever).
  split; [exact Hresolves |]. split; [| exact Hnever].
  exact (Hlogged eq_refl sample_error eq_refl).
Defined.


(** * Further properties of the hook *)

(** ** One rotation *)

Section MoreRotation.

Variable onWallpaperChanged : option (list event → result unit).

(** X1: a rotation in which every step succeeds calls the collaborators in
    the order getSettings, fetchRandomImage, setWallpaper (full URL and id
    of the fetched image), saveCurrentWallpaper (that image, the returned
    path), triggerDownload (its download location), then the observer; the
    stored wallpaper becomes that image and path; an observer that throws
    is logged and changes nothing else. *)
Theorem changeWallpaper_success env w s image path :
  isRunningRef w = false →
  env_getSettings env = Ok s →
  enabled s = true →
  env_fetchRandomImage env = Ok image →
  env_setWallpaper env = Ok path →
  env_saveCurrentWallpaper env = Ok tt →
  env_triggerDownload env = Ok tt →
  log (exec onWallpaperChanged env changeWallpaper w).1
  = (log w ++ [EGetSettings; EFetchRandomImage;
               ESetWallpaper (UnsplashImage.full (UnsplashImage.urls image))
                             (UnsplashImage.id image);
               ESaveCurrentWallpaper image path;
               ETriggerDownload
                 (UnsplashImage.download_location
                    (UnsplashImage.links image))])
    ++ observer_events onWallpaperChanged
         (log w ++ [EGetSettings; EFetchRandomImage;
                    ESetWallpaper
                      (UnsplashImage.full (UnsplashImage.urls image))
                      (UnsplashImage.id image);
                    ESaveCurrentWallpaper image path;
                    ETriggerDownload
                      (UnsplashImage.download_location
                         (UnsplashImage.links image))])
  ∧ current_wallpaper (exec onWallpaperChanged env changeWallpaper w).1
    = Some (image, path)
  ∧ isRunningRef (exec onWallpaperChanged env changeWallpaper w).1 = false
  ∧ (exec onWallpaperChanged env changeWallpaper w).2 = Ok tt.
Proof.
  intros Hg Hs Hen Hf Ha Hv Hn. rotate w env.
  rewrite (enabled_true s Hen). cbn.
  unfold observe, observer_events.
  destruct onWallpaperChanged as [callback |]; cbn.
  - rewrite <- !app_assoc. cbn.
    destruct (callback _) as [[] | e]; cbn; rewrite <- ?app_assoc; done.
  - by rewrite <- !app_assoc.
Qed.

(** X2: when [setWallpaper] fails the rotation stops there: neither
    [saveCurrentWallpaper] nor [triggerDownload] nor the observer is called,
    the stored wallpaper is unchanged, the error is logged, the guard is
    cleared and the call resolves. *)
Theorem changeWallpaper_apply_fails env w s image e :
  isRunningRef w = false →
  env_getSettings env = Ok s →
  enabled s = true →
  env_fetchRandomImage env = Ok image →
  env_setWallpaper env = Err e →
  log (exec onWallpaperChanged env changeWallpaper w).1
  = log w ++ [EGetSettings; EFetchRandomImage;
              ESetWallpaper (UnsplashImage.full (UnsplashImage.urls image))
                            (UnsplashImage.id image);
              EConsoleError e]
  ∧ current_wallpaper (exec onWallpaperChanged env changeWallpaper w).1
    = current_wallpaper w
  ∧ isRunningRef (exec onWallpaperChanged env changeWallpaper w).1 = false
  ∧ (exec onWallpaperChanged env changeWallpaper w).2 = Ok tt.
Proof.
  intros Hg Hs Hen Hf Ha. rotate w env.
  rewrite (enabled_true s Hen). cbn.
  by rewrite <- !app_assoc.
Qed.

(** X3: when [getSettings] itself fails inside a rotation, the error is
    caught and logged and nothing else is called; the guard is cleared and
    the call resolves. *)
Theorem changeWallpaper_settings_rejected env w e :
  isRunningRef w = false →
  env_getSettings env = Err e →
  log (exec onWallpaperChanged env changeWallpaper w).1
  = log w ++ [EGetSettings; EConsoleError e]
  ∧ current_wallpaper (exec onWallpaperChanged env changeWallpaper w).1
    = current_wallpaper w
  ∧ isRunningRef (exec onWallpaperChanged env changeWallpaper w).1 = false
  ∧ (exec onWallpaperChanged env changeWallpaper w).2 = Ok tt.
Proof.
  intros Hg Hs. rotate w env. by rewrite <- !app_assoc.
Qed.

(** X4: when [triggerDownload] fails the wallpaper has been applied and
    stored all the same (the stored wallpaper is the new image and path),
    but the observer is not called; the error is logged, the guard is
    cleared and the call resolves. *)
Theorem changeWallpaper_download_fails env w s image path e :
  isRunningRef w = false →
  env_getSettings env = Ok s →
  enabled s = true →
  env_fetchRandomImage env = Ok image →
  env_setWallpaper env = Ok path →
  env_saveCurrentWallpaper env = Ok tt →
  env_triggerDownload env = Err e →
  log (exec onWallpaperChanged env changeWallpaper w).1
  = log w ++ [EGetSettings; EFetchRandomImage;
              ESetWallpaper (UnsplashImage.full (UnsplashImage.urls image))
                            (UnsplashImage.id image);
              ESaveCurrentWallpaper image path;
              ETriggerDownload
                (UnsplashImage.download_location (UnsplashImage.links image));
              EConsoleError e]
  ∧ current_wallpaper (exec onWallpaperChanged env changeWallpaper w).1
    = Some (image, path)
  ∧ isRunningRef (exec onWallpaperChanged env changeWallpaper w).1 = false
  ∧ (exec onWallpaperChanged env changeWallpaper w).2 = Ok tt.
Proof.
  intros Hg Hs Hen Hf Ha Hv Hn. rotate w env.
  rewrite (enabled_true s Hen). cbn.
  by rewrite <- !app_assoc.
Qed.

(** X5: a rotation changes the stored wallpaper only when the settings
    allow it and fetch, apply and save all succeeded, and then to exactly
    the fetched image with the path [setWallpaper] returned; in every other
    case the stored wallpaper is what it was. *)
Theorem changeWallpaper_stores_only_applied env w :
  isRunningRef w = false →
  current_wallpaper (exec onWallpaperChanged env changeWallpaper w).1
  = current_wallpaper w
  ∨ ∃ s image path,
      env_getSettings env = Ok s ∧ enabled s = true
      ∧ env_fetchRandomImage env = Ok image
      ∧ env_setWallpaper env = Ok path
      ∧ env_saveCurrentWallpaper env = Ok tt
      ∧ current_wallpaper (exec onWallpaperChanged env changeWallpaper w).1
        = Some (image, path).
Proof.
  intros Hg. rotate w env.
  destruct rs as [s | e]; cbn; [| by left].
  destruct (enabled s) eqn:Hen.
  - rewrite (enabled_true s Hen). cbn.
    destruct rf as [image | e]; cbn; [| by left].
    destruct ra as [path | e]; cbn; [| by left].
    destruct rv as [[] | e]; cbn; [| by left].
    right. exists s, image, path. repeat split; try done.
    branches; done.
  - rewrite (enabled_false s Hen). cbn. by left.
Qed.

(** X6: whatever happens, a call of [changeWallpaper] leaves the timers and
    the interval ref alone: it neither arms nor cancels an interval. *)
Theorem changeWallpaper_leaves_timers env w :
  timers (exec onWallpaperChanged env changeWallpaper w).1 = timers w
  ∧ intervalRef (exec onWallpaperChanged env changeWallpaper w).1
    = intervalRef w
  ∧ handles_issued (exec onWallpaperChanged env changeWallpaper w).1
    = handles_issued w.
Proof.
  rotate w env. destruct guard; cbn; [done |].
  destruct rs as [s | e]; cbn; [split_enabled s |]; branches; done.
Qed.

Lemma changeWallpaper_exec_guard env w :
  isRunningRef w = false →
  isRunningRef (exec onWallpaperChanged env changeWallpaper w).1 = false.
Proof.
  intros Hg. rotate w env.
  destruct rs as [s | e]; cbn; [split_enabled s |]; branches; done.
Qed.

Lemma changeWallpaper_exec_first env w :
  isRunningRef w = false →
  ∃ rest, log (exec onWallpaperChanged env changeWallpaper w).1
          = log w ++ EGetSettings :: rest.
Proof.
  intros Hg. rotate w env.
  destruct rs as [s | e]; cbn; [split_enabled s |];
    branches; rewrite <- ?app_assoc; cbn; eauto.
Qed.

(** X7: however a rotation ended (success, failure at any step, or the
    settings check), the next call of [changeWallpaper] is not dropped: it
    starts a rotation of its own by reading the settings. *)
Theorem changeWallpaper_next_not_dropped env1 env2 w :
  isRunningRef w = false →
  ∃ rest,
    log (exec onWallpaperChanged env2 changeWallpaper
           (exec onWallpaperChanged env1 changeWallpaper w).1).1
    = log (exec onWallpaperChanged env1 changeWallpaper w).1
      ++ EGetSettings :: rest.
Proof.
  intros Hg. apply changeWallpaper_exec_first.
  by apply changeWallpaper_exec_guard.
Qed.

End MoreRotation.

(** ** Arming and disarming *)

Section MoreArming.

Variable onWallpaperChanged : option (list event → result unit).

(** X8: [stopAutoChange] cancels the active interval and sets the ref to
    [null], touching nothing else and calling no collaborator; a second
    call changes nothing at all. *)
Theorem stopAutoChange_disarms env w :
  tracked w →
  timers (exec onWallpaperChanged env stopAutoChange w).1 = ∅
  ∧ intervalRef (exec onWallpaperChanged env stopAutoChange w).1 = None
  ∧ log (exec onWallpaperChanged env stopAutoChange w).1 = log w
  ∧ isRunningRef (exec onWallpaperChanged env stopAutoChange w).1
    = isRunningRef w
  ∧ current_wallpaper (exec onWallpaperChanged env stopAutoChange w).1
    = current_wallpaper w
  ∧ (exec onWallpaperChanged env stopAutoChange w).2 = Ok tt
  ∧ exec onWallpaperChanged env stopAutoChange
      (exec onWallpaperChanged env stopAutoChange w).1
    = ((exec onWallpaperChanged env stopAutoChange w).1, Ok tt).
Proof.
  destruct w as [guard ref tm issued cw lg]. unfold tracked, stopAutoChange.
  cbn. intros Htr. destruct ref as [[| h] |]; cbn.
  - by destruct Htr.
  - destruct Htr as [_ [ms ->]]. by rewrite delete_singleton_eq.
  - by rewrite Htr.
Qed.

(** X9: when the settings it reads do not allow rotation, [startAutoChange]
    does nothing but that read: it arms no interval, and it does not cancel
    an interval that is already active. *)
Theorem startAutoChange_disabled_is_noop env w s :
  env_getSettings env = Ok s →
  enabled s = false →
  exec onWallpaperChanged env startAutoChange w = (emit EGetSettings w, Ok tt)
  ∧ timers (exec onWallpaperChanged env startAutoChange w).1 = timers w
  ∧ intervalRef (exec onWallpaperChanged env startAutoChange w).1
    = intervalRef w.
Proof.
  intros Hs Hen. rotate w env.
  by rewrite (enabled_false_arm s Hen).
Qed.

(** X10: [startAutoChange] has no error handling: when [getSettings] fails,
    its promise rejects with that error, and no interval is armed or
    cancelled. *)
Theorem startAutoChange_settings_rejected env w e :
  env_getSettings env = Err e →
  exec onWallpaperChanged env startAutoChange w = (emit EGetSettings w, Err e).
Proof. intros Hs. by rotate w env. Qed.

(** X11: [startAutoChange] does not validate the unit: with settings that
    allow rotation but a unit outside the enum it still arms an interval,
    and the delay it passes to [setInterval] is [NaN]. *)
Theorem startAutoChange_invalid_unit_arms_nan env w s :
  tracked w →
  env_getSettings env = Ok s →
  enabled s = true →
  ¬ IntervalUnit (interval_unit s) →
  timers (exec onWallpaperChanged env startAutoChange w).1
  = {[S (handles_issued w) := nan]}
  ∧ intervalRef (exec onWallpaperChanged env startAutoChange w).1
    = Some (S (handles_issued w))
  ∧ (exec onWallpaperChanged env startAutoChange w).2 = Ok tt.
Proof.
  intros Htr Hs Hen Hout.
  destruct w as [guard ref tm issued cw lg].
  destruct env as [rs rf ra rv rn].
  unfold tracked in Htr. cbn in Htr, Hs. subst rs.
  unfold startAutoChange, getIntervalMs. cbn.
  rewrite (enabled_true_arm s Hen). cbn.
  rewrite (multipliers_other _ Hout). cbn [to_number]. rewrite mul_nan_r.
  destruct ref as [[| h] |]; cbn.
  - by destruct Htr.
  - destruct Htr as [_ [ms ->]].
    by rewrite delete_singleton_eq, insert_empty.
  - by rewrite Htr, insert_empty.
Qed.

(** X12: arming and disarming never touch the reentrancy guard or the
    stored wallpaper; [startAutoChange] calls [getSettings] once and no
    other collaborator, [stopAutoChange] calls none. *)
Theorem arming_leaves_rotation_state env w :
  (isRunningRef (exec onWallpaperChanged env startAutoChange w).1
   = isRunningRef w
   ∧ current_wallpaper (exec onWallpaperChanged env startAutoChange w).1
     = current_wallpaper w
   ∧ log (exec onWallpaperChanged env startAutoChange w).1
     = log w ++ [EGetSettings])
  ∧ (isRunningRef (exec onWallpaperChanged env stopAutoChange w).1
     = isRunningRef w
     ∧ current_wallpaper (exec onWallpaperChanged env stopAutoChange w).1
       = current_wallpaper w
     ∧ log (exec onWallpaperChanged env stopAutoChange w).1 = log w).
Proof.
  rotate w env. split.
  - destruct rs as [s | e]; cbn; [| done].
    destruct (negb (auto_change s) || negb (truthy_string (api_key s))); cbn;
      [done |].
    by destruct ref as [[| h] |].
  - by destruct ref as [[| h] |].
Qed.

End MoreArming.

(** ** The effect, and calls that overlap *)

Section MoreInterleaving.

Variable onWallpaperChanged : option (list event → result unit).

Lemma stopAutoChange_run (w : world) :
  tracked w →
  timers (run onWallpaperChanged stopAutoChange w).1 = ∅
  ∧ intervalRef (run onWallpaperChanged stopAutoChange w).1 = None
  ∧ log (run onWallpaperChanged stopAutoChange w).1 = log w
  ∧ isRunningRef (run onWallpaperChanged stopAutoChange w).1 = isRunningRef w
  ∧ handles_issued (run onWallpaperChanged stopAutoChange w).1
    = handles_issued w
  ∧ (run onWallpaperChanged stopAutoChange w).2 = Ret tt.
Proof.
  destruct w as [guard ref tm issued cw lg]. unfold tracked, stopAutoChange.
  cbn. intros Htr. destruct ref as [[| h] |]; cbn.
  - by destruct Htr.
  - destruct Htr as [_ [ms ->]]. by rewrite delete_singleton_eq.
  - by rewrite Htr.
Qed.

(** X13: [stopAutoChange] does not cancel a rotation that is in flight: in
    every state the instance can reach, after the call the rotation is still
    pending where it was and still holds the guard; only the interval is
    gone, so no further tick can come. *)
Theorem stopAutoChange_keeps_rotation (s : system) i p :
  reachable onWallpaperChanged s →
  sys_tasks s !! i = Some (ChangeWallpaper, p) →
  pending p = true →
  sys_tasks (call onWallpaperChanged StopAutoChange s) !! i
  = Some (ChangeWallpaper, p)
  ∧ isRunningRef (sys_world (call onWallpaperChanged StopAutoChange s)) = true
  ∧ in_flight (sys_tasks (call onWallpaperChanged StopAutoChange s)) = 1
  ∧ timers (sys_world (call onWallpaperChanged StopAutoChange s)) = ∅
  ∧ log (sys_world (call onWallpaperChanged StopAutoChange s))
    = log (sys_world s).
Proof.
  intros Hreach Hi Hpend.
  destruct (reachable_sys_inv onWallpaperChanged s Hreach) as (Htr & _ & Hfl).
  pose proof (in_flight_lookup _ i _ Hi Hpend) as Hone.
  destruct (isRunningRef (sys_world s)) eqn:Hw; [| lia].
  destruct (stopAutoChange_run (sys_world s) Htr)
    as (Htm & _ & Hlog & Hg & _ & Hp).
  unfold call. cbn [sys_world sys_tasks body].
  repeat split.
  - by apply lookup_app_l_Some.
  - by rewrite Hg.
  - rewrite in_flight_app, Hfl, Hp. cbn. lia.
  - done.
  - done.
Qed.

(** X14: a call of [stopAutoChange] made while a call of [startAutoChange]
    is still waiting for the settings does not stop that call: when the
    settings arrive and allow rotation, it arms an interval all the same,
    which is then active although [stopAutoChange] was called last. *)
Theorem stopAutoChange_before_settings_arrive (w : world) s ms :
  tracked w →
  enabled s = true →
  getIntervalMs (interval_value s) (interval_unit s) = Ret ms →
  timers (run onWallpaperChanged stopAutoChange
            (run onWallpaperChanged startAutoChange w).1).1 = ∅
  ∧ ∃ armed,
      resume onWallpaperChanged
        (run onWallpaperChanged startAutoChange w).2
        (SettleSettings (Ok s))
        (run onWallpaperChanged stopAutoChange
           (run onWallpaperChanged startAutoChange w).1).1
      = Some armed
      ∧ armed.2 = Ret tt
      ∧ timers armed.1 = {[S (handles_issued w) := ms]}
      ∧ intervalRef armed.1 = Some (S (handles_issued w)).
Proof.
  intros Htr Hen Hms.
  unfold getIntervalMs in Hms. injection Hms as Hms.
  assert (tracked (run onWallpaperChanged startAutoChange w).1) as Htr'
    by (by apply (tracked_frame w)).
  destruct (stopAutoChange_run _ Htr') as (Htm & Href & _ & _ & Hissued & _).
  split; [done |].
  destruct (run onWallpaperChanged stopAutoChange
              (run onWallpaperChanged startAutoChange w).1).1
    as [guard ref tm issued cw lg] eqn:Hstopped.
  cbn in Htm, Href, Hissued. subst tm ref issued.
  eexists. split; [reflexivity |].
  unfold getIntervalMs. cbn.
  rewrite (enabled_true_arm s Hen). cbn.
  by rewrite Hms, insert_empty.
Qed.

(** X15: on mount, when the settings read do not allow rotation,
    [startAutoChange] is not called: the effect reads the settings once and
    does nothing else.  When that first read fails, nothing else happens
    either. *)
Theorem mountEffect_not_enabled env w :
  (∀ s, env_getSettings env = Ok s → enabled s = false) →
  (exec onWallpaperChanged env mountEffect w).1 = emit EGetSettings w.
Proof.
  intros Hen. rotate w env.
  destruct rs as [s | e]; cbn; [| done].
  specialize (Hen s eq_refl). by split_enabled s.
Qed.

(** X16: on mount, when the settings read allow rotation, [startAutoChange]
    is called and reads the settings again, and it is this second read that
    decides: an interval is armed with its delay when it allows rotation,
    and none is armed when it does not. *)
Theorem mountEffect_second_read_decides (w : world) s1 s2 ms :
  tracked w →
  enabled s1 = true →
  getIntervalMs (interval_value s2) (interval_unit s2) = Ret ms →
  ∃ st1 st2,
    resume onWallpaperChanged (run onWallpaperChanged mountEffect w).2
      (SettleSettings (Ok s1)) (run onWallpaperChanged mountEffect w).1
    = Some st1
    ∧ log st1.1 = log w ++ [EGetSettings; EGetSettings]
    ∧ timers st1.1 = timers w
    ∧ resume onWallpaperChanged st1.2 (SettleSettings (Ok s2)) st1.1
      = Some st2
    ∧ st2.2 = Ret tt
    ∧ if enabled s2
      then timers st2.1 = {[S (handles_issued w) := ms]}
           ∧ intervalRef st2.1 = Some (S (handles_issued w))
      else timers st2.1 = timers w ∧ intervalRef st2.1 = intervalRef w.
Proof.
  intros Htr Hen1 Hms.
  unfold getIntervalMs in Hms. injection Hms as Hms.
  destruct w as [guard ref tm issued cw lg]. unfold tracked in Htr.
  cbn in Htr.
  assert (auto_change s1 && truthy_string (api_key s1) = true) as Hcond
    by (by split_enabled s1).
  unfold mountEffect, startAutoChange, getIntervalMs. cbn.
  rewrite Hcond. cbn.
  eexists. eexists. split; [reflexivity |]. cbn.
  split; [by rewrite <- app_assoc |]. split; [done |].
  split; [reflexivity |].
  destruct (enabled s2) eqn:Hen2.
  - rewrite (enabled_true_arm s2 Hen2). cbn.
    destruct ref as [[| h] |]; cbn.
    + by destruct Htr.
    + destruct Htr as [_ [ms0 ->]].
      by rewrite Hms, delete_singleton_eq, insert_empty.
    + by rewrite Htr, Hms, insert_empty.
  - rewrite (enabled_false_arm s2 Hen2). by cbn.
Qed.

(** X17: in every state the instance can reach, the interval ref is [null]
    exactly when no interval is active, and an active interval is always
    the one whose (non-zero) handle the ref holds. *)
Theorem intervalRef_names_active_interval (s : system) :
  reachable onWallpaperChanged s →
  (intervalRef (sys_world s) = None ↔ timers (sys_world s) = ∅)
  ∧ ∀ h ms, timers (sys_world s) !! h = Some ms →
      intervalRef (sys_world s) = Some h ∧ h ≠ 0
      ∧ timers (sys_world s) = {[h := ms]}.
Proof.
  intros Hreach.
  destruct (reachable_sys_inv onWallpaperChanged s Hreach) as (Htr & _ & _).
  unfold tracked in Htr.
  destruct (intervalRef (sys_world s)) as [h0 |].
  - destruct Htr as [Hnz [ms0 Htm]]. rewrite Htm. split.
    + split; [done |]. intros Hempty.
      apply (f_equal (λ m : gmap nat float, m !! h0)) in Hempty.
      by rewrite lookup_singleton_eq, lookup_empty in Hempty.
    + intros h ms Hlook.
      apply lookup_singleton_Some in Hlook as [-> ->]. done.
  - rewrite Htr. split; [done |].
    intros h ms Hlook. by rewrite lookup_empty in Hlook.
Qed.

(** X18: when two calls of [startAutoChange] overlap, each reads its own
    settings, and the interval left at the end is the one armed by the call
    whose settings arrived last, whichever call was made first; the other
    call's interval has been cancelled. *)
Theorem startAutoChange_last_settled_wins (w : world) s1 s2 ms1 ms2 :
  tracked w →
  enabled s1 = true →
  enabled s2 = true →
  getIntervalMs (interval_value s1) (interval_unit s1) = Ret ms1 →
  getIntervalMs (interval_value s2) (interval_unit s2) = Ret ms2 →
  ∃ second_armed first_armed,
    resume onWallpaperChanged
      (run onWallpaperChanged startAutoChange
         (run onWallpaperChanged startAutoChange w).1).2
      (SettleSettings (Ok s2))
      (run onWallpaperChanged startAutoChange
         (run onWallpaperChanged startAutoChange w).1).1
    = Some second_armed
    ∧ timers second_armed.1 = {[S (handles_issued w) := ms2]}
    ∧ resume onWallpaperChanged
        (run onWallpaperChanged startAutoChange w).2
        (SettleSettings (Ok s1)) second_armed.1
      = Some first_armed
    ∧ first_armed.2 = Ret tt
    ∧ timers first_armed.1 = {[S (S (handles_issued w)) := ms1]}
    ∧ intervalRef first_armed.1 = Some (S (S (handles_issued w))).
Proof.
  intros Htr Hen1 Hen2 Hms1 Hms2.
  unfold getIntervalMs in Hms1, Hms2.
  injection Hms1 as Hms1. injection Hms2 as Hms2.
  destruct w as [guard ref tm issued cw lg]. unfold tracked in Htr.
  cbn in Htr.
  unfold startAutoChange, getIntervalMs. cbn.
  rewrite (enabled_true_arm s1 Hen1), (enabled_true_arm s2 Hen2). cbn.
  eexists. eexists. split; [reflexivity |]. cbn.
  destruct ref as [[| h] |]; cbn.
  - by destruct Htr.
  - destruct Htr as [_ [ms0 ->]].
    rewrite Hms1, Hms2, !delete_singleton_eq, !insert_empty,
      delete_singleton_eq, insert_empty.
    by repeat split.
  - rewrite Htr, Hms1, Hms2, !insert_empty, delete_singleton_eq, insert_empty.
    by repeat split.
Qed.

End MoreInterleaving.

(** ** The further properties at sample inputs *)

Lemma tracked_world0 : tracked world0.
Proof. reflexivity. Qed.

Lemma tracked_world_armed : tracked world_armed.
Proof. split; [discriminate | by eexists]. Qed.

Lemma fortnights_not_a_unit : ¬ IntervalUnit "fortnights".
Proof.
  unfold IntervalUnit. rewrite !elem_of_cons, elem_of_nil.
  intros [H | [H | [H | [H | []]]]]; discriminate H.
Qed.

Lemma changeWallpaper_success_witness :
  log (exec always_throws all_ok changeWallpaper world0).1
  = [EGetSettings; EFetchRandomImage; ESetWallpaper "full1" "img1";
     ESaveCurrentWallpaper sample_image "/tmp/img1.jpg";
     ETriggerDownload "loc1"; EOnWallpaperChanged;
     EConsoleError sample_error]
  ∧ current_wallpaper (exec always_throws all_ok changeWallpaper world0).1
    = Some (sample_image, "/tmp/img1.jpg")
  ∧ isRunningRef (exec always_throws all_ok changeWallpaper world0).1 = false
  ∧ (exec always_throws all_ok changeWallpaper world0).2 = Ok tt.
Proof.
  apply (changeWallpaper_success always_throws all_ok world0 sample_settings
           sample_image "/tmp/img1.jpg"); reflexivity.
Defined.

Lemma changeWallpaper_apply_fails_witness :
  log (exec just_returns apply_fails changeWallpaper world0).1
  = [EGetSettings; EFetchRandomImage; ESetWallpaper "full1" "img1";
     EConsoleError sample_error]
  ∧ current_wallpaper (exec just_returns apply_fails changeWallpaper world0).1
    = None
  ∧ isRunningRef (exec just_returns apply_fails changeWallpaper world0).1
    = false
  ∧ (exec just_returns apply_fails changeWallpaper world0).2 = Ok tt.
Proof.
  apply (changeWallpaper_apply_fails just_returns apply_fails world0
           sample_settings sample_image sample_error); reflexivity.
Defined.

Lemma changeWallpaper_settings_rejected_witness :
  log (exec just_returns settings_rejected changeWallpaper world0).1
  = [EGetSettings; EConsoleError sample_error]
  ∧ current_wallpaper
      (exec just_returns settings_rejected changeWallpaper world0).1 = None
  ∧ isRunningRef (exec just_returns settings_rejected changeWallpaper world0).1
    = false
  ∧ (exec just_returns settings_rejected changeWallpaper world0).2 = Ok tt.
Proof.
  apply (changeWallpaper_settings_rejected just_returns settings_rejected
           world0 sample_error); reflexivity.
Defined.

Lemma changeWallpaper_download_fails_witness :
  log (exec just_returns download_fails changeWallpaper world0).1
  = [EGetSettings; EFetchRandomImage; ESetWallpaper "full1" "img1";
     ESaveCurrentWallpaper sample_image "/tmp/img1.jpg";
     ETriggerDownload "loc1"; EConsoleError sample_error]
  ∧ current_wallpaper
      (exec just_returns download_fails changeWallpaper world0).1
    = Some (sample_image, "/tmp/img1.jpg")
  ∧ isRunningRef (exec just_returns download_fails changeWallpaper world0).1
    = false
  ∧ (exec just_returns download_fails changeWallpaper world0).2 = Ok tt.
Proof.
  apply (changeWallpaper_download_fails just_returns download_fails world0
           sample_settings sample_image "/tmp/img1.jpg" sample_error);
    reflexivity.
Defined.

Lemma changeWallpaper_stores_only_applied_witness :
  current_wallpaper (exec just_returns save_fails changeWallpaper world0).1
  = current_wallpaper world0
  ∨ ∃ s image path,
      env_getSettings save_fails = Ok s ∧ enabled s = true
      ∧ env_fetchRandomImage save_fails = Ok image
      ∧ env_setWallpaper save_fails = Ok path
      ∧ env_saveCurrentWallpaper save_fails = Ok tt
      ∧ current_wallpaper
          (exec just_returns save_fails changeWallpaper world0).1
        = Some (image, path).
Proof.
  apply (changeWallpaper_stores_only_applied just_returns save_fails world0).
  reflexivity.
Defined.

Lemma changeWallpaper_next_not_dropped_witness :
  ∃ rest,
    log (exec just_returns all_ok changeWallpaper
           (exec just_returns fetch_fails changeWallpaper world0).1).1
    = log (exec just_returns fetch_fails changeWallpaper world0).1
      ++ EGetSettings :: rest.
Proof.
  apply (changeWallpaper_next_not_dropped just_returns fetch_fails all_ok
           world0).
  reflexivity.
Defined.

Lemma stopAutoChange_disarms_witness :
  timers (exec None all_ok stopAutoChange world_armed).1 = ∅
  ∧ intervalRef (exec None all_ok stopAutoChange world_armed).1 = None
  ∧ log (exec None all_ok stopAutoChange world_armed).1 = log world_armed
  ∧ isRunningRef (exec None all_ok stopAutoChange world_armed).1
    = isRunningRef world_armed
  ∧ current_wallpaper (exec None all_ok stopAutoChange world_armed).1
    = current_wallpaper world_armed
  ∧ (exec None all_ok stopAutoChange world_armed).2 = Ok tt
  ∧ exec None all_ok stopAutoChange
      (exec None all_ok stopAutoChange world_armed).1
    = ((exec None all_ok stopAutoChange world_armed).1, Ok tt).
Proof.
  apply (stopAutoChange_disarms None all_ok world_armed).
  exact tracked_world_armed.
Defined.

Lemma startAutoChange_disabled_is_noop_witness :
  exec None user_disabled startAutoChange world_armed
  = (emit EGetSettings world_armed, Ok tt)
  ∧ timers (exec None user_disabled startAutoChange world_armed).1
    = timers world_armed
  ∧ intervalRef (exec None user_disabled startAutoChange world_armed).1
    = intervalRef world_armed.
Proof.
  apply (startAutoChange_disabled_is_noop None user_disabled world_armed
           disabled_settings); reflexivity.
Defined.

Lemma startAutoChange_settings_rejected_witness :
  exec None settings_rejected startAutoChange world_armed
  = (emit EGetSettings world_armed, Err sample_error).
Proof.
  apply (startAutoChange_settings_rejected None settings_rejected world_armed
           sample_error).
  reflexivity.
Defined.

Lemma startAutoChange_invalid_unit_arms_nan_witness :
  timers (exec None fortnightly startAutoChange world0).1 = {[1 := nan]}
  ∧ intervalRef (exec None fortnightly startAutoChange world0).1 = Some 1
  ∧ (exec None fortnightly startAutoChange world0).2 = Ok tt.
Proof.
  apply (startAutoChange_invalid_unit_arms_nan None fortnightly world0
           fortnightly_settings).
  - exact tracked_world0.
  - reflexivity.
  - reflexivity.
  - exact fortnights_not_a_unit.
Defined.

Lemma stopAutoChange_keeps_rotation_witness :
  sys_tasks (call just_returns StopAutoChange system1) !! 0
  = Some (ChangeWallpaper, (run just_returns changeWallpaper world0).2)
  ∧ isRunningRef (sys_world (call just_returns StopAutoChange system1)) = true
  ∧ in_flight (sys_tasks (call just_returns StopAutoChange system1)) = 1
  ∧ timers (sys_world (call just_returns StopAutoChange system1)) = ∅
  ∧ log (sys_world (call just_returns StopAutoChange system1))
    = log (sys_world system1).
Proof.
  apply (stopAutoChange_keeps_rotation just_returns system1 0
           (run just_returns changeWallpaper world0).2).
  - exact system1_reachable.
  - reflexivity.
  - reflexivity.
Defined.

Lemma stopAutoChange_before_settings_arrive_witness :
  timers (run None stopAutoChange (run None startAutoChange world_armed).1).1
  = ∅
  ∧ ∃ armed,
      resume None (run None startAutoChange world_armed).2
        (SettleSettings (Ok weekly_settings))
        (run None stopAutoChange (run None startAutoChange world_armed).1).1
      = Some armed
      ∧ armed.2 = Ret tt
      ∧ timers armed.1 = {[2 := 604800000%float]}
      ∧ intervalRef armed.1 = Some 2.
Proof.
  apply (stopAutoChange_before_settings_arrive None world_armed
           weekly_settings 604800000%float).
  - exact tracked_world_armed.
  - reflexivity.
  - reflexivity.
Defined.

Lemma mountEffect_not_enabled_witness :
  (exec None user_disabled mountEffect world0).1 = emit EGetSettings world0.
Proof.
  apply (mountEffect_not_enabled None user_disabled world0).
  intros s Hs. injection Hs as <-. reflexivity.
Defined.

Lemma mountEffect_second_read_decides_witness :
  ∃ st1 st2,
    resume None (run None mountEffect world0).2
      (SettleSettings (Ok sample_settings)) (run None mountEffect world0).1
    = Some st1
    ∧ log st1.1 = [EGetSettings; EGetSettings]
    ∧ timers st1.1 = ∅
    ∧ resume None st1.2 (SettleSettings (Ok disabled_settings)) st1.1
      = Some st2
    ∧ st2.2 = Ret tt
    ∧ timers st2.1 = ∅ ∧ intervalRef st2.1 = None.
Proof.
  apply (mountEffect_second_read_decides None world0 sample_settings
           disabled_settings 3600000%float).
  - exact tracked_world0.
  - reflexivity.
  - reflexivity.
Defined.

Lemma intervalRef_names_active_interval_witness :
  (intervalRef (sys_world system_armed) = None
   ↔ timers (sys_world system_armed) = ∅)
  ∧ ∀ h ms, timers (sys_world system_armed) !! h = Some ms →
      intervalRef (sys_world system_armed) = Some h ∧ h ≠ 0
      ∧ timers (sys_world system_armed) = {[h := ms]}.
Proof.
  apply (intervalRef_names_active_interval just_returns system_armed).
  exact system_armed_reachable.
Defined.

Lemma startAutoChange_last_settled_wins_witness :
  ∃ second_armed first_armed,
    resume None
      (run None startAutoChange (run None startAutoChange world0).1).2
      (SettleSettings (Ok weekly_settings))
      (run None startAutoChange (run None startAutoChange world0).1).1
    = Some second_armed
    ∧ timers second_armed.1 = {[1 := 604800000%float]}
    ∧ resume None (run None startAutoChange world0).2
        (SettleSettings (Ok sample_settings)) second_armed.1
      = Some first_armed
    ∧ first_armed.2 = Ret tt
    ∧ timers first_armed.1 = {[2 := 3600000%float]}
    ∧ intervalRef first_armed.1 = Some 2.
Proof.
  apply (startAutoChange_last_settled_wins None world0 sample_settings
           weekly_settings 3600000%float 604800000%float).
  - exact tracked_world0.
  - reflexivity.
  - reflexivity.
  - reflexivity.
  - reflexivity.
Defined.
